(** * PAM browser sessions: relay/gateway tunnels, query bridge, session
      channel and reconnecting client

    A shallow embedding of the TypeScript sources

    - [pam-session-memory-store.ts]      (module [MemoryStore])
    - [relay-connection-service.ts]      (module [RelayConnection])
    - [gateway-connection-service.ts]    (module [GatewayConnection])
    - [pam-query-execution-service.ts]   (module [QueryExecution])
    - the [/:sessionId/ws] route of [registerPamSessionRouter]
                                         (module [SessionChannel])
    - the React hook [usePamWebSocket]   (module [PamWebSocket])

    Asynchronous code is modelled by explicit events: what a socket, the
    database driver or a timer does next is an input of the model, and each
    handler is a function from the state before to the state after. *)

From Stdlib Require Import ZArith Ascii String DecimalString.
From stdpp Require Import gmap strings list fin_maps.

Open Scope Z_scope.

(* ===================================================================== *)
(** * JavaScript values the sources rely on *)
(* ===================================================================== *)

Module Js.

(** Strings are sequences of code units; a code unit here is one
    [ascii] (the range 0..255 of UTF-16 code units). *)

Definition str_length (s : string) : Z := Z.of_nat (String.length s).

(** [s.includes(t)] *)
Fixpoint includes (needle hay : string) : bool :=
  String.prefix needle hay ||
  match hay with
  | EmptyString => false
  | String _ rest => includes needle rest
  end.

(** [s.substring(0, n)] for a non-negative integer [n]; a negative [n]
    is clamped to 0 as [String.prototype.substring] does. *)
Definition substring0 (n : Z) (s : string) : string :=
  String.substring 0 (Z.to_nat n) s.

(** [s.split(c)] for a one-character separator: always at least one
    segment. *)
Fixpoint split (c : ascii) (s : string) : list string :=
  match s with
  | EmptyString => [EmptyString]
  | String a rest =>
      if Ascii.eqb a c then EmptyString :: split c rest
      else
        match split c rest with
        | seg :: segs => String a seg :: segs
        | [] => [String a EmptyString]
        end
  end.

(** [StrWhiteSpaceChar] restricted to the code units below 256:
    TAB, LF, VT, FF, CR, SP and NBSP. *)
Definition is_white_space (a : ascii) : bool :=
  let n := N_of_ascii a in
  ((9 <=? n) && (n <=? 13) || (n =? 32) || (n =? 160))%N.

Fixpoint trim_start (s : string) : string :=
  match s with
  | String a rest => if is_white_space a then trim_start rest else s
  | EmptyString => EmptyString
  end.

Definition digit_value (a : ascii) : option Z :=
  let n := Z.of_N (N_of_ascii a) in
  if (48 <=? n) && (n <=? 57) then Some (n - 48) else None.

(** The longest prefix of decimal digits, most significant first. *)
Fixpoint leading_digits (s : string) : list Z :=
  match s with
  | String a rest =>
      match digit_value a with
      | Some d => d :: leading_digits rest
      | None => []
      end
  | EmptyString => []
  end.

Definition decimal_value (ds : list Z) : Z :=
  fold_left (fun acc d => acc * 10 + d) ds 0.

(** [parseInt(s, 10)]: [None] is NaN.  Leading white space is skipped, one
    sign is accepted, and parsing stops at the first character that is
    not a decimal digit; NaN only when no digit was read.  The result is
    kept as a mathematical integer (the engine rounds beyond 2^53). *)
Definition parseInt10 (s : string) : option Z :=
  let s1 := trim_start s in
  let '(sign, s2) :=
    match s1 with
    | String "-"%char rest => (-1, rest)
    | String "+"%char rest => (1, rest)
    | _ => (1, s1)
    end in
  match leading_digits s2 with
  | [] => None
  | ds => Some (sign * decimal_value ds)
  end.

(** [arr.slice(0, end)] for an integer [end]: a negative [end] counts
    from the end of the array. *)
Definition slice0 {A : Type} (l : list A) (e : Z) : list A :=
  let len := Z.of_nat (length l) in
  let final := if e <? 0 then Z.max (len + e) 0 else Z.min e len in
  take (Z.to_nat final) l.

(** [Math.ceil(a / b)] for integers [a] and [b > 0]. *)
Definition ceil_div (a b : Z) : Z := - ((- a) / b).

(** What a method hands back to its caller: [undefined] for a [void]
    method, or a boolean. *)
Inductive value : Type :=
| VUndefined
| VBool (b : bool).

(** What [throw] carries: an [Error] with its message, or any other
    value, known by its [String(...)] rendering. *)
Inductive thrown : Type :=
| ThrownError (message : string)
| ThrownOther (rendered : string).

(** [error instanceof Error ? error.message : String(error)] *)
Definition thrown_text (t : thrown) : string :=
  match t with
  | ThrownError m => m
  | ThrownOther r => r
  end.

(** [x || d] on an optional string: the empty string is falsy too. *)
Definition or_default (o : option string) (d : string) : string :=
  match o with
  | Some s => if decide (s = "") then d else s
  | None => d
  end.

(** How an awaited call ends. *)
Inductive completion (A : Type) : Type :=
| Returned (a : A)
| Threw (message : string).
Arguments Returned {A} a.
Arguments Threw {A} message.

End Js.

(* ===================================================================== *)
(** * The logger *)
(* ===================================================================== *)

Module Logger.

Inductive level := Debug | Info | Warn | Error.

Inductive field_value :=
| FStr (s : string)
| FNum (z : Z).

Record entry := {
  lvl : level;
  fields : list (string * field_value);
  msg : string
}.

Definition log (l : level) (fs : list (string * field_value)) (m : string)
  : entry := {| lvl := l; fields := fs; msg := m |}.

End Logger.

(* ===================================================================== *)
(** * pam-session-memory-store.ts *)
(* ===================================================================== *)

Module MemoryStore.

Record TCredentials := {
  username : string;
  password : string;
  database : string
}.

Record TSessionAccessData := {
  relayHost : string;
  relayClientCert : string;
  relayClientKey : string;
  relayServerCertChain : string;
  gatewayClientCert : string;
  gatewayClientKey : string;
  gatewayServerCertChain : string;
  credentials : TCredentials
}.

(** [private store = new Map<string, TSessionAccessData>()] *)
Abbreviation Store := (gmap string TSessionAccessData).

(** Every method returns the store after the call, the log entries it
    wrote and its return value. *)

Definition set (sessionId : string) (data : TSessionAccessData) (st : Store)
  : Store * list Logger.entry :=
  (<[sessionId := data]> st,
   [Logger.log Logger.Info [("sessionId", Logger.FStr sessionId)]
      "Stored session access data in memory"]).

Definition get (sessionId : string) (st : Store) : option TSessionAccessData :=
  st !! sessionId.

(** [Map.prototype.delete]: the map without the key, and whether the key
    was there. *)
Definition map_delete (sessionId : string) (st : Store) : Store * bool :=
  (base.delete sessionId st, bool_decide (is_Some (st !! sessionId))).

(** [delete(sessionId: string): void] *)
Definition delete (sessionId : string) (st : Store)
  : Store * list Logger.entry * Js.value :=
  let '(st', deleted) := map_delete sessionId st in
  (st',
   if deleted
   then [Logger.log Logger.Info [("sessionId", Logger.FStr sessionId)]
           "Deleted session access data from memory"]
   else [],
   Js.VUndefined).

Definition has (sessionId : string) (st : Store) : bool :=
  bool_decide (is_Some (st !! sessionId)).

(** [keys()]: the ids in the store (a [Map] iterates in insertion order,
    which the finite map does not keep). *)
Definition keys (st : Store) : list string := (map_to_list st).*1.

Definition size (st : Store) : Z := Z.of_nat (base.size st).

Definition clear (st : Store) : Store * list Logger.entry :=
  let count := Z.of_nat (base.size st) in
  (∅,
   [Logger.log Logger.Warn [("count", Logger.FNum count)]
      "Cleared all session access data from memory"]).

(** [export const sessionAccessDataStore = new SessionAccessDataStore()] *)
Definition sessionAccessDataStore : Store := ∅.

End MemoryStore.

(* ===================================================================== *)
(** * The [tls] module as the two connection services use it *)
(* ===================================================================== *)

Module Tls.

(** What the socket reports once the handshake is over. *)
Record Handshake := {
  authorized : bool;
  authorizationError : option string;   (* [authorizationError?.message] *)
  alpnProtocol : option string;         (* [false] when none was negotiated *)
  getProtocol : string;
  getCipherName : option string
}.

(** The options of [tls.connect]; the byte stream is either a fresh TCP
    connection to [host:port] or an existing socket. *)
Inductive Transport :=
| ToHost (host : string) (port : Z)
| OverSocket (s : TLSSocket)
with TLSSocket :=
| Socket (transport : Transport)
         (cert key ca servername : string)
         (ALPNProtocols : list string)
         (minVersion : string) (maxVersion : option string)
         (rejectUnauthorized : bool).

(** The first event a connecting socket emits.  Each of the three
    listeners the services install settles the promise, so the first
    event decides how the [await] ends. *)
Inductive SocketEvent :=
| SecureConnect (h : Handshake)
| ErrorEvent (message : string)
| TimeoutEvent.

(** What a connection service does to the outside, in order. *)
Inductive Effect :=
| ELog (e : Logger.entry)
| EConnect (s : TLSSocket)
| ESetTimeout (s : TLSSocket) (ms : Z)
| EDestroy (s : TLSSocket).

(** The state of the awaited promise. *)
Inductive settled (A : Type) :=
| Resolved (a : A)
| Rejected (message : string)
| Pending.
Arguments Resolved {A} a.
Arguments Rejected {A} message.
Arguments Pending {A}.

Definition opt_field (k : string) (o : option string)
  : list (string * Logger.field_value) :=
  match o with
  | Some s => [(k, Logger.FStr s)]
  | None => []
  end.

Definition is_connect (e : Effect) : bool :=
  match e with EConnect _ => true | _ => false end.

End Tls.

(** Decimal rendering of a number inside a template string. *)
Definition show_Z (z : Z) : string :=
  NilZero.string_of_int (Z.to_int z).

(* ===================================================================== *)
(** * relay-connection-service.ts *)
(* ===================================================================== *)

Module RelayConnection.
Import Tls.

Record TRelayConnectionConfig := {
  relayHost : string;
  relayClientCert : string;
  relayClientKey : string;
  relayServerCertChain : string
}.

(** Lines 26-39: host and port from ["host:port"] or just ["host"]. *)
Definition parseRelayHost (relayHost : string) : Js.completion (string * Z) :=
  let port := 8443 in
  if Js.includes ":" relayHost then
    let parts := Js.split ":"%char relayHost in
    let host := default "" (parts !! 0%nat) in
    match Js.parseInt10 (default "" (parts !! 1%nat)) with
    | None => Js.Threw ("Invalid port in relay host: " +:+ relayHost)
    | Some parsedPort => Js.Returned (host, parsedPort)
    end
  else Js.Returned (relayHost, port).

Definition relaySocket (config : TRelayConnectionConfig) (host : string) (port : Z)
  : TLSSocket :=
  Socket (ToHost host port)
         (relayClientCert config) (relayClientKey config)
         (relayServerCertChain config)
         host [] "TLSv1.2" None true.

(** The promise around the handshake. *)
Definition awaitHandshake (host : string) (port : Z) (relayConn : TLSSocket)
    (ev : option SocketEvent) : list Effect * settled unit :=
  match ev with
  | Some (SecureConnect h) =>
      if negb (authorized h) then
        ([], Rejected ("Relay TLS connection not authorized: "
                       +:+ Js.or_default (authorizationError h) "Unknown error"))
      else
        ([ELog (Logger.log Logger.Info
                  ([("host", Logger.FStr host); ("port", Logger.FNum port);
                    ("protocol", Logger.FStr (getProtocol h))]
                   ++ opt_field "cipher" (getCipherName h))
                  "Relay TLS connection established")],
         Resolved ())
  | Some (ErrorEvent message) =>
      ([ELog (Logger.log Logger.Error
                [("host", Logger.FStr host); ("port", Logger.FNum port);
                 ("error", Logger.FStr message)]
                "Relay TLS connection error")],
       Rejected ("Failed to connect to relay: " +:+ message))
  | Some TimeoutEvent =>
      ([EDestroy relayConn],
       Rejected ("Relay connection timeout after 10 seconds ("
                 +:+ host +:+ ":" +:+ show_Z port +:+ ")"))
  | None => ([], Pending)
  end.

Definition createRelayConnection (config : TRelayConnectionConfig)
    (ev : option SocketEvent) : list Effect * settled TLSSocket :=
  match parseRelayHost (relayHost config) with
  | Js.Threw m => ([], Rejected m)
  | Js.Returned (host, port) =>
      let relayConn := relaySocket config host port in
      let setup :=
        [ELog (Logger.log Logger.Debug
                 [("host", Logger.FStr host); ("port", Logger.FNum port)]
                 "Creating relay TLS connection");
         EConnect relayConn;
         ESetTimeout relayConn 10000] in
      match awaitHandshake host port relayConn ev with
      | (eff, Resolved _) =>
          (setup ++ eff ++ [ESetTimeout relayConn 0], Resolved relayConn)
      | (eff, Rejected m) => (setup ++ eff, Rejected m)
      | (eff, Pending) => (setup ++ eff, Pending)
      end
  end.

End RelayConnection.

(* ===================================================================== *)
(** * gateway-connection-service.ts *)
(* ===================================================================== *)

Module GatewayConnection.
Import Tls.

Record TGatewayConnectionConfig := {
  gatewayClientCert : string;
  gatewayClientKey : string;
  gatewayServerCertChain : string
}.

Definition ALPN_PAM_PROXY : string := "infisical-pam-proxy".

Definition gatewaySocket (relayConn : TLSSocket) (config : TGatewayConnectionConfig)
  : TLSSocket :=
  Socket (OverSocket relayConn)
         (gatewayClientCert config) (gatewayClientKey config)
         (gatewayServerCertChain config)
         "localhost" [ALPN_PAM_PROXY] "TLSv1.2" (Some "TLSv1.3") true.

Definition awaitHandshake (gatewayConn : TLSSocket) (ev : option SocketEvent)
  : list Effect * settled unit :=
  match ev with
  | Some (SecureConnect h) =>
      if negb (authorized h) then
        ([], Rejected ("Gateway mTLS connection not authorized: "
                       +:+ Js.or_default (authorizationError h) "Unknown error"))
      else if negb (bool_decide (alpnProtocol h = Some ALPN_PAM_PROXY)) then
        ([], Rejected ("Gateway ALPN protocol mismatch: expected '"
                       +:+ ALPN_PAM_PROXY +:+ "', got '"
                       +:+ Js.or_default (alpnProtocol h) "none" +:+ "'"))
      else
        ([ELog (Logger.log Logger.Info
                  ([("protocol", Logger.FStr (getProtocol h))]
                   ++ opt_field "cipher" (getCipherName h)
                   ++ opt_field "alpn" (alpnProtocol h))
                  "Gateway mTLS connection established")],
         Resolved ())
  | Some (ErrorEvent message) =>
      ([ELog (Logger.log Logger.Error [("error", Logger.FStr message)]
                "Gateway mTLS connection error")],
       Rejected ("Failed to connect to gateway: " +:+ message))
  | Some TimeoutEvent =>
      ([EDestroy gatewayConn],
       Rejected "Gateway mTLS connection timeout after 10 seconds")
  | None => ([], Pending)
  end.

Definition createGatewayConnection (relayConn : TLSSocket)
    (config : TGatewayConnectionConfig) (ev : option SocketEvent)
  : list Effect * settled TLSSocket :=
  let gatewayConn := gatewaySocket relayConn config in
  let setup :=
    [ELog (Logger.log Logger.Debug [] "Creating gateway mTLS connection over relay");
     EConnect gatewayConn;
     ESetTimeout gatewayConn 10000] in
  match awaitHandshake gatewayConn ev with
  | (eff, Resolved _) =>
      (setup ++ eff ++ [ESetTimeout gatewayConn 0], Resolved gatewayConn)
  | (eff, Rejected m) => (setup ++ eff, Rejected m)
  | (eff, Pending) => (setup ++ eff, Pending)
  end.

End GatewayConnection.

(* ===================================================================== *)
(** * pam-query-execution-service.ts *)
(* ===================================================================== *)

Module QueryExecution.

Record TQueryCredentials := {
  username : string;
  password : string;
  database : string
}.

Record TQueryOptions := {
  maxRows : option Z;
  timeout : option Z
}.

Record TField := {
  name : string;
  dataType : Z
}.

(** A column of the driver's result: [column.name], [column.type]. *)
Record Column := {
  column_name : string;
  column_type : Z
}.

(** The options handed to [postgres(...)]. *)
Record ClientConfig := {
  socket : option Tls.TLSSocket;
  cfg_database : string;
  cfg_username : string;
  cfg_password : string;
  ssl : bool;
  max_lifetime : Z;
  idle_timeout : Z;
  max : Z
}.

Section WithRow.
Context {Row : Type}.

Record TQueryResult := {
  rows : list Row;
  rowCount : Z;
  fields : list TField;
  executionTime : Z
}.

(** What [sql.unsafe(query)] resolves to: an array of rows that also
    carries [count] (from the command tag; may be null) and
    [columns] (may be missing). *)
Record DriverResult := {
  items : list Row;
  count : option Z;
  columns : option (list Column)
}.

Inductive DriverOutcome :=
| Fulfilled (result : DriverResult)
| Failed (error : Js.thrown).

(** Everything the world decides during one call: how [sql.unsafe]
    ends, the two readings of [Date.now()], and whether [sql.end]
    throws. *)
Record Settlement := {
  outcome : DriverOutcome;
  startTime : Z;
  endTime : Z;
  endError : option Js.thrown
}.

(** [const { maxRows = 1000, timeout = 30000 } = options] with
    [options = {}] by default. *)
Definition resolved_maxRows (options : option TQueryOptions) : Z :=
  default 1000 (options ≫= maxRows).
Definition resolved_timeout (options : option TQueryOptions) : Z :=
  default 30000 (options ≫= timeout).

Definition clientConfig (gatewayConn : option Tls.TLSSocket)
    (credentials : TQueryCredentials) (options : option TQueryOptions)
  : ClientConfig :=
  let t := resolved_timeout options in
  {| socket := gatewayConn;
     cfg_database := database credentials;
     cfg_username := username credentials;
     cfg_password := password credentials;
     ssl := false;
     max_lifetime := Js.ceil_div t 1000;
     idle_timeout := Js.ceil_div t 1000;
     max := 1 |}.

(** The part of the function that runs before [await sql.unsafe]. *)
Definition start (gatewayConn : option Tls.TLSSocket) (query : string)
    (credentials : TQueryCredentials) (options : option TQueryOptions)
  : list Logger.entry * ClientConfig :=
  ([Logger.log Logger.Info
      [("database", Logger.FStr (database credentials));
       ("username", Logger.FStr (username credentials));
       ("queryLength", Logger.FNum (Js.str_length query));
       ("maxRows", Logger.FNum (resolved_maxRows options));
       ("timeout", Logger.FNum (resolved_timeout options))]
      "Executing query through gateway";
    Logger.log Logger.Info [] "PostgreSQL client connected through gateway"],
   clientConfig gatewayConn credentials options).

(** The [finally] block. *)
Definition finish (endError : option Js.thrown) : list Logger.entry :=
  match endError with
  | None => [Logger.log Logger.Debug [] "PostgreSQL client disconnected"]
  | Some e =>
      [Logger.log Logger.Warn [("error", Logger.FStr (Js.thrown_text e))]
         "Failed to cleanly disconnect PostgreSQL client"]
  end.

(** The part that runs once [sql.unsafe] has settled: the rest of the
    [try], the [catch] and the [finally]. *)
Definition settle (query : string) (credentials : TQueryCredentials)
    (options : option TQueryOptions) (s : Settlement)
  : list Logger.entry * Js.completion TQueryResult :=
  match outcome s with
  | Fulfilled result =>
      let executionTime := endTime s - startTime s in
      let columns := default [] (columns result) in
      let rowCount := default (Z.of_nat (length (items result))) (count result) in
      ([Logger.log Logger.Info
          [("database", Logger.FStr (database credentials));
           ("rowCount", Logger.FNum rowCount);
           ("executionTime", Logger.FNum executionTime);
           ("fieldCount", Logger.FNum (Z.of_nat (length columns)))]
          "Query executed successfully"]
       ++ finish (endError s),
       Js.Returned
         {| rows := Js.slice0 (items result) (resolved_maxRows options);
            rowCount := rowCount;
            fields := (λ column, {| name := column_name column;
                                    dataType := column_type column |})
                      <$> columns;
            executionTime := executionTime |})
  | Failed error =>
      ([Logger.log Logger.Error
          [("database", Logger.FStr (database credentials));
           ("error", Logger.FStr (Js.thrown_text error));
           ("queryPreview", Logger.FStr (Js.substring0 100 query))]
          "Query execution failed"]
       ++ finish (endError s),
       Js.Threw ("Query execution failed: " +:+ Js.thrown_text error))
  end.

Definition executeQueryThroughGateway (gatewayConn : option Tls.TLSSocket)
    (query : string) (credentials : TQueryCredentials)
    (options : option TQueryOptions) (s : Settlement)
  : list Logger.entry * Js.completion TQueryResult :=
  let '(l1, _) := start gatewayConn query credentials options in
  let '(l2, c) := settle query credentials options s in
  (l1 ++ l2, c).

End WithRow.

Arguments TQueryResult : clear implicits.
Arguments DriverResult : clear implicits.
Arguments DriverOutcome : clear implicits.
Arguments Settlement : clear implicits.

End QueryExecution.

(* ===================================================================== *)
(** * The messages on the WebSocket ([WSMessage] of usePamWebSocket.ts) *)
(* ===================================================================== *)

Module Wire.

Record WSError := {
  err_message : string;
  err_code : option string
}.

Record WSOptions := {
  opt_maxRows : option Z;
  opt_timeout : option Z
}.

Record WSMessage {Row : Type} := {
  type : string;
  message : option string;
  query : option string;
  options : option WSOptions;
  data : option (QueryExecution.TQueryResult Row);
  error : option WSError
}.
Arguments WSMessage : clear implicits.

Definition bare {Row : Type} (t : string) : WSMessage Row :=
  {| type := t; message := None; query := None; options := None;
     data := None; error := None |}.

(** [{ type: "connected", message }] *)
Definition connected {Row : Type} (m : string) : WSMessage Row :=
  {| type := "connected"; message := Some m; query := None; options := None;
     data := None; error := None |}.

(** [{ type: "query_result", data }] *)
Definition query_result {Row : Type} (d : QueryExecution.TQueryResult Row)
  : WSMessage Row :=
  {| type := "query_result"; message := None; query := None; options := None;
     data := Some d; error := None |}.

(** [{ type: "query_error", error }] *)
Definition query_error {Row : Type} (e : WSError) : WSMessage Row :=
  {| type := "query_error"; message := None; query := None; options := None;
     data := None; error := Some e |}.

(** [{ type: "execute_query", query, options }] *)
Definition execute_query {Row : Type} (q : string) (o : WSOptions)
  : WSMessage Row :=
  {| type := "execute_query"; message := None; query := Some q;
     options := Some o; data := None; error := None |}.

End Wire.

(* ===================================================================== *)
(** * The [/:sessionId/ws] route of registerPamSessionRouter *)
(* ===================================================================== *)

Module SessionChannel.

(** [PamSessionStatus]: the route only tells [Ended] and [Terminated]
    from the rest. *)
Inductive PamSessionStatus :=
| Ended
| Terminated
| OtherStatus (name : string).

Record Session := {
  status : PamSessionStatus;
  expiresAt : option Z;
  projectId : string
}.

Inductive Leg := GatewayLeg | RelayLeg.

Definition queryCredentials (c : MemoryStore.TCredentials)
  : QueryExecution.TQueryCredentials :=
  {| QueryExecution.username := MemoryStore.username c;
     QueryExecution.password := MemoryStore.password c;
     QueryExecution.database := MemoryStore.database c |}.

Section WithRow.
Context {Row : Type}.

Local Abbreviation WSMessage := (Wire.WSMessage Row).
Local Abbreviation Settlement := (QueryExecution.Settlement Row).

(** The [data] of a ["message"] event: text that [JSON.parse] refuses,
    or the parsed object. *)
Inductive Inbound :=
| NotJson
| Json (parsed : WSMessage).

(** The output of [WebSocketMessageSchema.parse]. *)
Record Validated := {
  v_query : string;
  v_options : option QueryExecution.TQueryOptions
}.

Definition in_range (lo hi : Z) (o : option Z) : bool :=
  match o with
  | None => true
  | Some n => (lo <=? n) && (n <=? hi)
  end.

(** [WebSocketMessageSchema.parse]: [None] when it throws. *)
Definition parseMessage (parsed : WSMessage) : option Validated :=
  if negb (bool_decide (Wire.type parsed = "execute_query")) then None
  else
    match Wire.query parsed with
    | None => None
    | Some q =>
        if negb ((1 <=? Js.str_length q) && (Js.str_length q <=? 10000))
        then None
        else
          match Wire.options parsed with
          | None => Some {| v_query := q; v_options := None |}
          | Some o =>
              if in_range 1 10000 (Wire.opt_maxRows o)
                 && in_range 1000 120000 (Wire.opt_timeout o)
              then Some {| v_query := q;
                           v_options :=
                             Some {| QueryExecution.maxRows := Wire.opt_maxRows o;
                                     QueryExecution.timeout := Wire.opt_timeout o |} |}
              else None
          end
    end.

(** The variables the handlers of one connection close over, and what
    the connection has done so far. *)
Record Channel := {
  sessionId : string;
  accessData : MemoryStore.TSessionAccessData;
  relayConn : option Tls.TLSSocket;
  gatewayConn : option Tls.TLSSocket;
  socketOpen : bool;
  (** [socket.send], oldest first *)
  sent : list WSMessage;
  (** ["message"] handlers suspended at [await executeQueryThroughGateway] *)
  inflight : list (nat * Validated);
  nextId : nat;
  (** [end()] calls, oldest first *)
  ended : list Leg;
  (** rejected promises of ["message"] handlers: nothing awaits them *)
  rejections : list string;
  (** exceptions that left the ["close"] listener *)
  uncaught : list Js.thrown;
  logs : list Logger.entry
}.

Definition with_logs (l : list Logger.entry) (ch : Channel) : Channel :=
  {| sessionId := sessionId ch; accessData := accessData ch;
     relayConn := relayConn ch; gatewayConn := gatewayConn ch;
     socketOpen := socketOpen ch; sent := sent ch;
     inflight := inflight ch; nextId := nextId ch; ended := ended ch;
     rejections := rejections ch; uncaught := uncaught ch;
     logs := logs ch ++ l |}.

Definition reject (m : string) (ch : Channel) : Channel :=
  {| sessionId := sessionId ch; accessData := accessData ch;
     relayConn := relayConn ch; gatewayConn := gatewayConn ch;
     socketOpen := socketOpen ch; sent := sent ch;
     inflight := inflight ch; nextId := nextId ch; ended := ended ch;
     rejections := rejections ch ++ [m]; uncaught := uncaught ch;
     logs := logs ch |}.

(** [socket.send(JSON.stringify(m))]; a socket that is no longer open
    drops the frame. *)
Definition send (m : WSMessage) (ch : Channel) : Channel :=
  {| sessionId := sessionId ch; accessData := accessData ch;
     relayConn := relayConn ch; gatewayConn := gatewayConn ch;
     socketOpen := socketOpen ch;
     sent := if socketOpen ch then sent ch ++ [m] else sent ch;
     inflight := inflight ch; nextId := nextId ch; ended := ended ch;
     rejections := rejections ch; uncaught := uncaught ch;
     logs := logs ch |}.

Definition with_inflight (l : list (nat * Validated)) (n : nat) (ch : Channel)
  : Channel :=
  {| sessionId := sessionId ch; accessData := accessData ch;
     relayConn := relayConn ch; gatewayConn := gatewayConn ch;
     socketOpen := socketOpen ch; sent := sent ch;
     inflight := l; nextId := n; ended := ended ch;
     rejections := rejections ch; uncaught := uncaught ch;
     logs := logs ch |}.

(** The ["message"] listener up to its [await]: parse, validate, and
    enter [executeQueryThroughGateway]. *)
Definition onMessage (data : Inbound) (ch : Channel) : Channel :=
  match data with
  | NotJson => reject "SyntaxError" ch
  | Json parsed =>
      match parseMessage parsed with
      | None => reject "ZodError" ch
      | Some validated =>
          let '(l, _) :=
            QueryExecution.start (gatewayConn ch) (v_query validated)
              (queryCredentials (MemoryStore.credentials (accessData ch)))
              (v_options validated) in
          with_inflight (inflight ch ++ [(nextId ch, validated)])
                        (S (nextId ch))
                        (with_logs l ch)
      end
  end.

Definition find_inflight (id : nat) (l : list (nat * Validated))
  : option Validated :=
  snd <$> List.find (λ p, Nat.eqb (fst p) id) l.

Definition drop_inflight (id : nat) (l : list (nat * Validated))
  : list (nat * Validated) :=
  List.filter (λ p, negb (Nat.eqb (fst p) id)) l.

(** The rest of the ["message"] listener, once the query of invocation
    [id] has settled. *)
Definition onSettled (id : nat) (s : Settlement) (ch : Channel) : Channel :=
  match find_inflight id (inflight ch) with
  | None => ch
  | Some validated =>
      let '(l, c) :=
        QueryExecution.settle (v_query validated)
          (queryCredentials (MemoryStore.credentials (accessData ch)))
          (v_options validated) s in
      let ch1 :=
        with_inflight (drop_inflight id (inflight ch)) (nextId ch)
                      (with_logs l ch) in
      match c with
      | Js.Returned results => send (Wire.query_result results) ch1
      | Js.Threw m => reject m ch1
      end
  end.

(** The ["close"] listener.  [gatewayEnd] and [relayEnd] say whether the
    respective [end()] call throws. *)
Definition onClose (gatewayEnd relayEnd : option Js.thrown) (ch : Channel)
  : Channel :=
  let l := [Logger.log Logger.Info [("sessionId", Logger.FStr (sessionId ch))]
              "WebSocket connection closed"] in
  let '(ended1, thrown1) :=
    match gatewayConn ch with
    | Some _ => ([GatewayLeg], gatewayEnd)
    | None => ([], None)
    end in
  let '(ended2, thrown2) :=
    match thrown1 with
    | Some e => (ended1, Some e)
    | None =>
        match relayConn ch with
        | Some _ => (ended1 ++ [RelayLeg], relayEnd)
        | None => (ended1, None)
        end
    end in
  {| sessionId := sessionId ch; accessData := accessData ch;
     relayConn := relayConn ch; gatewayConn := gatewayConn ch;
     socketOpen := false; sent := sent ch;
     inflight := inflight ch; nextId := nextId ch;
     ended := ended ch ++ ended2;
     rejections := rejections ch;
     uncaught := uncaught ch ++ option_list thrown2;
     logs := logs ch ++ l |}.

Inductive Event :=
| Message (data : Inbound)
| Settled (id : nat) (s : Settlement)
| Close (gatewayEnd relayEnd : option Js.thrown).

Definition step (ch : Channel) (e : Event) : Channel :=
  match e with
  | Message data => onMessage data ch
  | Settled id s => onSettled id s ch
  | Close g r => onClose g r ch
  end.

Definition run (ch : Channel) (es : list Event) : Channel :=
  fold_left step es ch.

(** ** Establishing the channel (the route handler before it registers
    its listeners) *)

Record Opening := {
  session : Session;
  now : Z;
  canRead : bool;
  relayEvent : option Tls.SocketEvent;
  gatewayEvent : option Tls.SocketEvent
}.

Inductive Opened :=
| Refused (code : Z) (reason : string)
| Aborted (message : string) (effects : list Tls.Effect)
| Stalled (effects : list Tls.Effect)
| Ready (effects : list Tls.Effect) (ch : Channel).

Definition expired (s : Session) (now : Z) : bool :=
  match expiresAt s with
  | Some t => t <? now
  | None => false
  end.

Definition openChannel (sid : string) (store : gmap string MemoryStore.TSessionAccessData)
    (o : Opening) : Opened :=
  match status (session o) with
  | Ended | Terminated => Refused 4404 "Session has ended"
  | OtherStatus _ =>
  if expired (session o) (now o) then Refused 4404 "Session has expired"
  else if negb (canRead o) then
    Refused 4403 "Forbidden: No permission to access session"
  else
    match MemoryStore.get sid store with
    | None => Refused 4404 "Session data not found or expired"
    | Some accessData =>
        let relayConfig :=
          {| RelayConnection.relayHost := MemoryStore.relayHost accessData;
             RelayConnection.relayClientCert := MemoryStore.relayClientCert accessData;
             RelayConnection.relayClientKey := MemoryStore.relayClientKey accessData;
             RelayConnection.relayServerCertChain :=
               MemoryStore.relayServerCertChain accessData |} in
        match RelayConnection.createRelayConnection relayConfig (relayEvent o) with
        | (e1, Tls.Rejected m) => Aborted m e1
        | (e1, Tls.Pending) => Stalled e1
        | (e1, Tls.Resolved relay) =>
            let gatewayConfig :=
              {| GatewayConnection.gatewayClientCert :=
                   MemoryStore.gatewayClientCert accessData;
                 GatewayConnection.gatewayClientKey :=
                   MemoryStore.gatewayClientKey accessData;
                 GatewayConnection.gatewayServerCertChain :=
                   MemoryStore.gatewayServerCertChain accessData |} in
            match GatewayConnection.createGatewayConnection relay gatewayConfig
                    (gatewayEvent o) with
            | (e2, Tls.Rejected m) => Aborted m (e1 ++ e2)
            | (e2, Tls.Pending) => Stalled (e1 ++ e2)
            | (e2, Tls.Resolved gateway) =>
                Ready (e1 ++ e2)
                  {| sessionId := sid; accessData := accessData;
                     relayConn := Some relay; gatewayConn := Some gateway;
                     socketOpen := true;
                     sent := [Wire.connected "WebSocket connection established"];
                     inflight := []; nextId := 0%nat; ended := [];
                     rejections := []; uncaught := []; logs := [] |}
            end
        end
    end
  end.

End WithRow.

Arguments Inbound : clear implicits.
Arguments Validated : clear implicits.
Arguments Channel : clear implicits.
Arguments Event : clear implicits.
Arguments Opened : clear implicits.

End SessionChannel.

(* ===================================================================== *)
(** * usePamWebSocket.ts *)
(* ===================================================================== *)

Module PamWebSocket.

Inductive ConnectionStatus :=
| disconnected
| connecting
| connected
| reconnecting.

Inductive ReadyState := CONNECTING | OPEN | CLOSING | CLOSED.

Definition MAX_RECONNECT_ATTEMPTS : Z := 5.
Definition INITIAL_RECONNECT_DELAY : Z := 1000.
Definition MAX_RECONNECT_DELAY : Z := 30000.

Record ExecuteQueryOptions := {
  maxRows : option Z
}.

(** What [connect] finds when it runs: whether [getAuthToken()] yields a
    token and whether [new WebSocket(...)] throws. *)
Record ConnectEnv := {
  token : bool;
  constructorThrows : bool
}.

Section WithRow.
Context {Row : Type}.

Local Abbreviation WSMessage := (Wire.WSMessage Row).

(** The React state, the refs, and the browser objects they point to. *)
Record Hook := {
  connectionStatus : ConnectionStatus;
  lastResult : option (QueryExecution.TQueryResult Row);
  lastError : option Wire.WSError;
  isExecuting : bool;
  (** [wsRef.current] with its [readyState] *)
  wsRef : option ReadyState;
  reconnectAttemptsRef : Z;
  (** [reconnectTimeoutRef.current]: the handle of the last [setTimeout] *)
  reconnectTimeoutRef : option nat;
  shouldReconnectRef : bool;
  (** pending [setTimeout] callbacks: handle and delay *)
  timers : list (nat * Z);
  nextTimer : nat;
  (** [ws.send], oldest first *)
  outbox : list WSMessage
}.

Definition initial : Hook :=
  {| connectionStatus := disconnected; lastResult := None; lastError := None;
     isExecuting := false; wsRef := None; reconnectAttemptsRef := 0;
     reconnectTimeoutRef := None; shouldReconnectRef := true;
     timers := []; nextTimer := 0%nat; outbox := [] |}.

Definition setConnectionStatus (c : ConnectionStatus) (h : Hook) : Hook :=
  {| connectionStatus := c; lastResult := lastResult h; lastError := lastError h;
     isExecuting := isExecuting h; wsRef := wsRef h;
     reconnectAttemptsRef := reconnectAttemptsRef h;
     reconnectTimeoutRef := reconnectTimeoutRef h;
     shouldReconnectRef := shouldReconnectRef h;
     timers := timers h; nextTimer := nextTimer h; outbox := outbox h |}.

Definition setWs (w : option ReadyState) (h : Hook) : Hook :=
  {| connectionStatus := connectionStatus h; lastResult := lastResult h;
     lastError := lastError h; isExecuting := isExecuting h; wsRef := w;
     reconnectAttemptsRef := reconnectAttemptsRef h;
     reconnectTimeoutRef := reconnectTimeoutRef h;
     shouldReconnectRef := shouldReconnectRef h;
     timers := timers h; nextTimer := nextTimer h; outbox := outbox h |}.

Definition setAttempts (n : Z) (h : Hook) : Hook :=
  {| connectionStatus := connectionStatus h; lastResult := lastResult h;
     lastError := lastError h; isExecuting := isExecuting h; wsRef := wsRef h;
     reconnectAttemptsRef := n;
     reconnectTimeoutRef := reconnectTimeoutRef h;
     shouldReconnectRef := shouldReconnectRef h;
     timers := timers h; nextTimer := nextTimer h; outbox := outbox h |}.

Definition setShouldReconnect (b : bool) (h : Hook) : Hook :=
  {| connectionStatus := connectionStatus h; lastResult := lastResult h;
     lastError := lastError h; isExecuting := isExecuting h; wsRef := wsRef h;
     reconnectAttemptsRef := reconnectAttemptsRef h;
     reconnectTimeoutRef := reconnectTimeoutRef h;
     shouldReconnectRef := b;
     timers := timers h; nextTimer := nextTimer h; outbox := outbox h |}.

(** [setLastResult], [setLastError] and [setIsExecuting] together. *)
Definition setOutcome (r : option (QueryExecution.TQueryResult Row))
    (e : option Wire.WSError) (x : bool) (h : Hook) : Hook :=
  {| connectionStatus := connectionStatus h; lastResult := r;
     lastError := e; isExecuting := x; wsRef := wsRef h;
     reconnectAttemptsRef := reconnectAttemptsRef h;
     reconnectTimeoutRef := reconnectTimeoutRef h;
     shouldReconnectRef := shouldReconnectRef h;
     timers := timers h; nextTimer := nextTimer h; outbox := outbox h |}.

(** [reconnectTimeoutRef.current = setTimeout(callback, delay)] *)
Definition setTimeout (delay : Z) (h : Hook) : Hook :=
  {| connectionStatus := connectionStatus h; lastResult := lastResult h;
     lastError := lastError h; isExecuting := isExecuting h; wsRef := wsRef h;
     reconnectAttemptsRef := reconnectAttemptsRef h;
     reconnectTimeoutRef := Some (nextTimer h);
     shouldReconnectRef := shouldReconnectRef h;
     timers := timers h ++ [(nextTimer h, delay)];
     nextTimer := S (nextTimer h); outbox := outbox h |}.

Definition pending (handle : nat) (h : Hook) : bool :=
  existsb (λ t, Nat.eqb (fst t) handle) (timers h).

(** [clearTimeout(handle)], and what firing does to the pending list. *)
Definition clearTimeout (handle : nat) (h : Hook) : Hook :=
  {| connectionStatus := connectionStatus h; lastResult := lastResult h;
     lastError := lastError h; isExecuting := isExecuting h; wsRef := wsRef h;
     reconnectAttemptsRef := reconnectAttemptsRef h;
     reconnectTimeoutRef := reconnectTimeoutRef h;
     shouldReconnectRef := shouldReconnectRef h;
     timers := List.filter (λ t, negb (Nat.eqb (fst t) handle)) (timers h);
     nextTimer := nextTimer h; outbox := outbox h |}.

Definition wsSend (m : WSMessage) (h : Hook) : Hook :=
  {| connectionStatus := connectionStatus h; lastResult := lastResult h;
     lastError := lastError h; isExecuting := isExecuting h; wsRef := wsRef h;
     reconnectAttemptsRef := reconnectAttemptsRef h;
     reconnectTimeoutRef := reconnectTimeoutRef h;
     shouldReconnectRef := shouldReconnectRef h;
     timers := timers h; nextTimer := nextTimer h; outbox := outbox h ++ [m] |}.

(** [ws.close()]: the socket starts closing; ["close"] fires later. *)
Definition wsClose (h : Hook) : Hook :=
  match wsRef h with
  | Some _ => setWs (Some CLOSING) h
  | None => h
  end.

Definition connect (env : ConnectEnv) (h : Hook) : Hook :=
  match wsRef h with
  | Some OPEN => h
  | _ =>
      let h := setConnectionStatus connecting h in
      if negb (token env) then setConnectionStatus disconnected h
      else if constructorThrows env then setConnectionStatus disconnected h
      else setWs (Some CONNECTING) h
  end.

(** [ws.onopen]; the browser has set [readyState] to [OPEN]. *)
Definition onopen (h : Hook) : Hook :=
  setAttempts 0 (setConnectionStatus connected (setWs (Some OPEN) h)).

(** The [data] of a message event: text [JSON.parse] refuses, or the
    parsed object. *)
Inductive Frame :=
| NotJson
| Json (message : WSMessage).

(** [ws.onmessage] *)
Definition onmessage (f : Frame) (h : Hook) : Hook :=
  match f with
  | NotJson => h
  | Json message =>
      let t := Wire.type message in
      if decide (t = "connected") then setConnectionStatus connected h
      else if decide (t = "query_result") then
        setOutcome (Wire.data message) None false h
      else if decide (t = "query_error") then
        setOutcome None
          (Some (default {| Wire.err_message := "Unknown error";
                            Wire.err_code := None |}
                         (Wire.error message)))
          false h
      else if decide (t = "session_expired") then
        wsClose
          (setShouldReconnect false
             (setOutcome (lastResult h)
                (Some {| Wire.err_message :=
                           Js.or_default (Wire.message message) "Session expired";
                         Wire.err_code := None |})
                false h))
      else h
  end.

(** [ws.onerror] *)
Definition onerror (h : Hook) : Hook := setConnectionStatus disconnected h.

Definition reconnectDelay (attempts : Z) : Z :=
  Z.min (INITIAL_RECONNECT_DELAY * 2 ^ attempts) MAX_RECONNECT_DELAY.

(** [ws.onclose] *)
Definition onclose (h : Hook) : Hook :=
  let h := setWs None (setConnectionStatus disconnected h) in
  if shouldReconnectRef h && (reconnectAttemptsRef h <? MAX_RECONNECT_ATTEMPTS)
  then
    let delay := reconnectDelay (reconnectAttemptsRef h) in
    setTimeout delay (setConnectionStatus reconnecting h)
  else h.

(** The callback given to [setTimeout] in [onclose], when timer [handle]
    fires. *)
Definition ontimer (handle : nat) (env : ConnectEnv) (h : Hook) : Hook :=
  if pending handle h then
    let h := clearTimeout handle h in
    connect env (setAttempts (reconnectAttemptsRef h + 1) h)
  else h.

Definition executeQuery (query : string) (options : option ExecuteQueryOptions)
    (h : Hook) : Hook :=
  match wsRef h with
  | Some OPEN =>
      let m := match options ≫= maxRows with
               | Some n => if n =? 0 then 1000 else n
               | None => 1000
               end in
      wsSend (Wire.execute_query query
                {| Wire.opt_maxRows := Some m; Wire.opt_timeout := None |})
             (setOutcome None None true h)
  | _ =>
      setOutcome (lastResult h)
        (Some {| Wire.err_message := "WebSocket not connected";
                 Wire.err_code := None |})
        (isExecuting h) h
  end.

(** The effect that runs on mount, and its cleanup. *)
Definition mount (user : bool) (env : ConnectEnv) (h : Hook) : Hook :=
  if negb user then h
  else connect env (setShouldReconnect true h).

Definition unmount (h : Hook) : Hook :=
  let h := setShouldReconnect false h in
  let h := match reconnectTimeoutRef h with
           | Some handle => clearTimeout handle h
           | None => h
           end in
  wsClose h.

Inductive Event :=
| Open
| Message (f : Frame)
| Error
| Closed
| Timer (handle : nat) (env : ConnectEnv)
| ExecuteQuery (query : string) (options : option ExecuteQueryOptions).

Definition step (h : Hook) (e : Event) : Hook :=
  match e with
  | Open => onopen h
  | Message f => onmessage f h
  | Error => onerror h
  | Closed => onclose h
  | Timer handle env => ontimer handle env h
  | ExecuteQuery q o => executeQuery q o h
  end.

Definition run (h : Hook) (es : list Event) : Hook := fold_left step es h.

(** The events that come from a socket; the others come from a timer or
    from the user. *)
Definition from_socket (e : Event) : bool :=
  match e with
  | Open | Message _ | Error | Closed => true
  | Timer _ _ | ExecuteQuery _ _ => false
  end.

(** The delays of the timers pending in [h]. *)
Definition pendingDelays (h : Hook) : list Z := snd <$> timers h.

End WithRow.

Arguments Hook : clear implicits.
Arguments Frame : clear implicits.
Arguments Event : clear implicits.

End PamWebSocket.

From Stdlib Require Import DecimalZ.

(* ===================================================================== *)
(** * SessionHeader.tsx *)
(* ===================================================================== *)

Module SessionHeader.

Definition hoursLeft (diffMs : Z) : Z := diffMs / (1000 * 60 * 60).

Definition minutesLeft (diffMs : Z) : Z :=
  Z.rem diffMs (1000 * 60 * 60) / (1000 * 60).

(** [timeRemaining]: [expiresAt] and [now] are the [getTime()] of the two
    dates; [None] is a session without [expiresAt]. *)
Definition timeRemaining (expiresAt : option Z) (now : Z) : string :=
  match expiresAt with
  | None => "No expiration"
  | Some t =>
      let diffMs := t - now in
      if diffMs <=? 0 then "Expired"
      else
        let hours := hoursLeft diffMs in
        let minutes := minutesLeft diffMs in
        if 0 <? hours
        then show_Z hours +:+ "h " +:+ show_Z minutes +:+ "m remaining"
        else show_Z minutes +:+ "m remaining"
  end.

End SessionHeader.

(* ===================================================================== *)
(** * SqlEditor.tsx: what the editor does with the hook *)
(* ===================================================================== *)

Module SqlEditor.
Import PamWebSocket.

Fixpoint trim_end (s : string) : string :=
  match s with
  | EmptyString => EmptyString
  | String a rest =>
      match trim_end rest with
      | EmptyString => if Js.is_white_space a then EmptyString
                       else String a EmptyString
      | kept => String a kept
      end
  end.

(** [s.trim()] *)
Definition trim (s : string) : string := trim_end (Js.trim_start s).

(** A string of white space only, the empty string included. *)
Fixpoint all_white_space (s : string) : bool :=
  match s with
  | EmptyString => true
  | String a rest => Js.is_white_space a && all_white_space rest
  end.

Section WithRow.
Context {Row : Type}.

Definition canExecute (h : Hook Row) (query : string) : bool :=
  match connectionStatus h with connected => true | _ => false end
  && negb (isExecuting h)
  && (0 <? Js.str_length (trim query)).

Definition handleExecute (query : string) (h : Hook Row) : Hook Row :=
  if decide (trim query = "") then h
  else executeQuery query (Some {| maxRows := Some 1000 |}) h.

Definition handleKeyDown (metaKey ctrlKey : bool) (key : string)
    (query : string) (h : Hook Row) : Hook Row :=
  if (metaKey || ctrlKey) && bool_decide (key = "Enter")
  then handleExecute query h
  else h.

(** A click on the button, which is disabled unless [canExecute]. *)
Definition clickExecute (query : string) (h : Hook Row) : Hook Row :=
  if canExecute h query then handleExecute query h else h.

End WithRow.

End SqlEditor.

(* ===================================================================== *)
(** * What a run of the session channel lets one observe *)
(* ===================================================================== *)

Module ChannelObservations.
Import SessionChannel.

(** The configurations the route builds from the access data. *)
Definition relayConfigOf (d : MemoryStore.TSessionAccessData)
  : RelayConnection.TRelayConnectionConfig :=
  {| RelayConnection.relayHost := MemoryStore.relayHost d;
     RelayConnection.relayClientCert := MemoryStore.relayClientCert d;
     RelayConnection.relayClientKey := MemoryStore.relayClientKey d;
     RelayConnection.relayServerCertChain := MemoryStore.relayServerCertChain d |}.

Definition gatewayConfigOf (d : MemoryStore.TSessionAccessData)
  : GatewayConnection.TGatewayConnectionConfig :=
  {| GatewayConnection.gatewayClientCert := MemoryStore.gatewayClientCert d;
     GatewayConnection.gatewayClientKey := MemoryStore.gatewayClientKey d;
     GatewayConnection.gatewayServerCertChain := MemoryStore.gatewayServerCertChain d |}.

(** What establishing a channel did to the network. *)
Definition effects_of {Row : Type} (o : Opened Row) : list Tls.Effect :=
  match o with
  | Refused _ _ => []
  | Aborted _ effects | Stalled effects | Ready effects _ => effects
  end.

(** A connection attempt that runs over another socket: the gateway leg. *)
Definition is_gateway_connect (e : Tls.Effect) : bool :=
  match e with
  | Tls.EConnect (Tls.Socket (Tls.OverSocket _) _ _ _ _ _ _ _ _) => true
  | _ => false
  end.




End ChannelObservations.

(** The digits of a decimal numeral, most significant first. *)
Fixpoint uint_digits (d : Decimal.uint) : list Z :=
  match d with
  | Decimal.Nil => []
  | Decimal.D0 l => 0 :: uint_digits l
  | Decimal.D1 l => 1 :: uint_digits l
  | Decimal.D2 l => 2 :: uint_digits l
  | Decimal.D3 l => 3 :: uint_digits l
  | Decimal.D4 l => 4 :: uint_digits l
  | Decimal.D5 l => 5 :: uint_digits l
  | Decimal.D6 l => 6 :: uint_digits l
  | Decimal.D7 l => 7 :: uint_digits l
  | Decimal.D8 l => 8 :: uint_digits l
  | Decimal.D9 l => 9 :: uint_digits l
  end.

(* ===================================================================== *)
(** * Scenarios: the inputs the examples below run the code on *)
(* ===================================================================== *)

Definition sample_credentials : MemoryStore.TCredentials :=
  {| MemoryStore.username := "alice"; MemoryStore.password := "s3cret";
     MemoryStore.database := "appdb" |}.

Definition sample_access : MemoryStore.TSessionAccessData :=
  {| MemoryStore.relayHost := "relay.example.com:8443";
     MemoryStore.relayClientCert := "relay-cert";
     MemoryStore.relayClientKey := "relay-key";
     MemoryStore.relayServerCertChain := "relay-ca";
     MemoryStore.gatewayClientCert := "gateway-cert";
     MemoryStore.gatewayClientKey := "gateway-key";
     MemoryStore.gatewayServerCertChain := "gateway-ca";
     MemoryStore.credentials := sample_credentials |}.

Definition sample_store : gmap string MemoryStore.TSessionAccessData :=
  (MemoryStore.set "session-1" sample_access MemoryStore.sessionAccessDataStore).1.

(** What the specification calls a valid integer: an optional sign and
    then decimal digits only, at least one. *)
Fixpoint all_digits (s : string) : bool :=
  match s with
  | EmptyString => true
  | String a rest => bool_decide (is_Some (Js.digit_value a)) && all_digits rest
  end.

Definition is_decimal_integer (s : string) : bool :=
  match s with
  | String "-"%char (String a rest) | String "+"%char (String a rest)
  | String a rest =>
      bool_decide (is_Some (Js.digit_value a)) && all_digits rest
  | _ => false
  end.

Definition relay_handshake : Tls.Handshake :=
  {| Tls.authorized := true; Tls.authorizationError := None;
     Tls.alpnProtocol := None; Tls.getProtocol := "TLSv1.3";
     Tls.getCipherName := Some "TLS_AES_256_GCM_SHA384" |}.

Definition gateway_handshake : Tls.Handshake :=
  {| Tls.authorized := true; Tls.authorizationError := None;
     Tls.alpnProtocol := Some "infisical-pam-proxy"; Tls.getProtocol := "TLSv1.3";
     Tls.getCipherName := Some "TLS_AES_256_GCM_SHA384" |}.

Definition sample_opening : SessionChannel.Opening :=
  {| SessionChannel.session :=
       {| SessionChannel.status := SessionChannel.OtherStatus "active";
          SessionChannel.expiresAt := Some 2000;
          SessionChannel.projectId := "project-1" |};
     SessionChannel.now := 1000;
     SessionChannel.canRead := true;
     SessionChannel.relayEvent := Some (Tls.SecureConnect relay_handshake);
     SessionChannel.gatewayEvent := Some (Tls.SecureConnect gateway_handshake) |}.

Definition sample_relay : Tls.TLSSocket :=
  Tls.Socket (Tls.ToHost "relay.example.com" 8443)
    "relay-cert" "relay-key" "relay-ca" "relay.example.com" [] "TLSv1.2" None true.

Definition sample_gateway : Tls.TLSSocket :=
  Tls.Socket (Tls.OverSocket sample_relay)
    "gateway-cert" "gateway-key" "gateway-ca" "localhost"
    ["infisical-pam-proxy"] "TLSv1.2" (Some "TLSv1.3") true.

(** The channel right after it was established for ["session-1"]. *)
Definition ready_channel : SessionChannel.Channel nat :=
  {| SessionChannel.sessionId := "session-1";
     SessionChannel.accessData := sample_access;
     SessionChannel.relayConn := Some sample_relay;
     SessionChannel.gatewayConn := Some sample_gateway;
     SessionChannel.socketOpen := true;
     SessionChannel.sent := [Wire.connected "WebSocket connection established"];
     SessionChannel.inflight := []; SessionChannel.nextId := 0%nat;
     SessionChannel.ended := []; SessionChannel.rejections := [];
     SessionChannel.uncaught := []; SessionChannel.logs := [] |}.

Definition ask (q : string) : SessionChannel.Inbound nat :=
  SessionChannel.Json
    (Wire.execute_query q {| Wire.opt_maxRows := Some 1000; Wire.opt_timeout := None |}).

Definition fails_with (m : string) : QueryExecution.Settlement nat :=
  {| QueryExecution.outcome := QueryExecution.Failed (Js.ThrownError m);
     QueryExecution.startTime := 100; QueryExecution.endTime := 105;
     QueryExecution.endError := None |}.

Definition yields (l : list nat) : QueryExecution.Settlement nat :=
  {| QueryExecution.outcome :=
       QueryExecution.Fulfilled
         {| QueryExecution.items := l;
            QueryExecution.count := Some (Z.of_nat (length l));
            QueryExecution.columns :=
              Some [{| QueryExecution.column_name := "n";
                       QueryExecution.column_type := 23 |}] |};
     QueryExecution.startTime := 200; QueryExecution.endTime := 207;
     QueryExecution.endError := None |}.

Definition reply (l : list nat) : Wire.WSMessage nat :=
  Wire.query_result
    {| QueryExecution.rows := l;
       QueryExecution.rowCount := Z.of_nat (length l);
       QueryExecution.fields :=
         [{| QueryExecution.name := "n"; QueryExecution.dataType := 23 |}];
       QueryExecution.executionTime := 7 |}.

Definition online : PamWebSocket.ConnectEnv :=
  {| PamWebSocket.token := true; PamWebSocket.constructorThrows := false |}.

(** A connection attempt that fails: ["error"], then ["close"]. *)
Definition failure {Row : Type} : list (PamWebSocket.Event Row) :=
  [PamWebSocket.Error; PamWebSocket.Closed].

(** [k] reconnects in a row that all fail; the timers fire in the order
    they were set, starting with [handle]. *)
Fixpoint failed_reconnects {Row : Type} (handle : nat) (k : nat)
  : list (PamWebSocket.Event Row) :=
  match k with
  | O => []
  | S k' => PamWebSocket.Timer handle online :: failure
            ++ failed_reconnects (S handle) k'
  end.

(** The hook right after mount: the first connection is being made. *)
Definition mounted {Row : Type} : PamWebSocket.Hook Row :=
  PamWebSocket.mount true online PamWebSocket.initial.

(** The first connection fails, and so do the next [k] reconnects. *)
Definition after_failed_reconnects {Row : Type} (k : nat) : PamWebSocket.Hook Row :=
  PamWebSocket.run mounted (failure ++ failed_reconnects 0 k).

(** The hook once its first connection is open. *)
Definition connected_hook : PamWebSocket.Hook nat :=
  PamWebSocket.run mounted [PamWebSocket.Open].

(** A handshake with a peer whose certificate is not trusted. *)
Definition untrusted_handshake : Tls.Handshake :=
  {| Tls.authorized := false;
     Tls.authorizationError := Some "self signed certificate";
     Tls.alpnProtocol := None; Tls.getProtocol := "TLSv1.3";
     Tls.getCipherName := None |}.

(* ===================================================================== *)
(** * Properties *)
(* ===================================================================== *)

(** ** Strings *)

Section StringFacts.

Lemma append_nil (s : string) : "" +:+ s = s.
Proof. reflexivity. Qed.

Lemma append_cons (a : ascii) (s t : string) :
  String a s +:+ t = String a (s +:+ t).
Proof. reflexivity. Qed.

Lemma prefix_app (x b : string) : String.prefix x (x +:+ b) = true.
Proof.
  induction x as [|a x IH].
  - by destruct b.
  - rewrite append_cons. simpl. destruct (ascii_dec a a); [apply IH | congruence].
Qed.

Lemma includes_here (x hay : string) :
  String.prefix x hay = true → Js.includes x hay = true.
Proof. intros H. destruct hay; simpl in *; by rewrite H. Qed.

Lemma includes_later (x : string) (a : ascii) (hay : string) :
  Js.includes x hay = true → Js.includes x (String a hay) = true.
Proof. intros H. simpl. rewrite H. apply orb_true_r. Qed.

(** A string contains whatever was spliced into it. *)
Lemma includes_middle (x a b : string) : Js.includes x (a +:+ x +:+ b) = true.
Proof.
  induction a as [|c a IH].
  - rewrite append_nil. apply includes_here, prefix_app.
  - rewrite append_cons. by apply includes_later.
Qed.

Lemma includes_char_cons (c a : ascii) (s : string) :
  Js.includes (String c "") (String a s)
  = Ascii.eqb a c || Js.includes (String c "") s.
Proof.
  simpl. destruct (ascii_dec c a) as [->|Hne].
  - rewrite Ascii.eqb_refl. by destruct s.
  - destruct (Ascii.eqb a c) eqn:E; [|done].
    apply Ascii.eqb_eq in E. congruence.
Qed.

Lemma includes_char_nil (c : ascii) : Js.includes (String c "") "" = false.
Proof. done. Qed.

Lemma split_without (c : ascii) (s : string) :
  Js.includes (String c "") s = false → Js.split c s = [s].
Proof.
  induction s as [|a s IH]; [done|].
  rewrite includes_char_cons. intros [Ha Hs]%orb_false_iff.
  simpl. rewrite Ha, (IH Hs). done.
Qed.

Lemma split_two (c : ascii) (host seg : string) :
  Js.includes (String c "") host = false →
  Js.includes (String c "") seg = false →
  Js.split c (host +:+ String c seg) = [host; seg].
Proof.
  intros Hh Hs. induction host as [|a host IH].
  - rewrite append_nil. simpl. rewrite Ascii.eqb_refl. by rewrite split_without.
  - rewrite append_cons. rewrite includes_char_cons in Hh. apply orb_false_iff in Hh as [Ha Hh].
    simpl. rewrite Ha, (IH Hh). done.
Qed.

Lemma includes_sep (c : ascii) (host seg : string) :
  Js.includes (String c "") (host +:+ String c seg) = true.
Proof. apply (includes_middle (String c "") host seg). Qed.

End StringFacts.

(** ** The session access data store *)

Section MemoryStoreFacts.
Import MemoryStore.

Lemma has_get (id : string) (st : gmap string TSessionAccessData) :
  has id st = bool_decide (is_Some (get id st)).
Proof. reflexivity. Qed.

Lemma get_set_same (id : string) (d : TSessionAccessData)
    (st : gmap string TSessionAccessData) :
  get id (set id d st).1 = Some d.
Proof. unfold get, set. simpl. apply lookup_insert_eq. Qed.

Lemma get_delete_other (id id' : string) (st : gmap string TSessionAccessData) :
  id ≠ id' → get id' (delete id st).1.1 = get id' st.
Proof. intros H. unfold get, delete. simpl. by apply lookup_delete_ne. Qed.

(** C7, as stated, fails: with a bundle stored under ["session-1"],
    [delete "session-1"] hands back [undefined], so it is not a boolean
    that tells whether the bundle was present. *)
Lemma delete_returns_undefined_when_present :
  has "session-1" sample_store = true ∧
  ¬ (∃ b : bool,
        (delete "session-1" sample_store).2 = Js.VBool b ∧
        (b = true ↔ is_Some (get "session-1" sample_store))).
Proof.
  split; [by vm_compute|].
  intros (b & Hret & _). unfold delete in Hret. simpl in Hret. discriminate.
Qed.

(** C7, amended: [delete(id)] returns nothing ([void]); it removes the
    bundle stored under [id], writes its info line exactly when a bundle
    was present before the call, and afterwards [get(id)] is absent and
    [has(id)] is false. *)
Theorem delete_then_get_absent (id : string) (st : gmap string TSessionAccessData) :
  let '(st', logs, ret) := delete id st in
  ret = Js.VUndefined ∧
  get id st' = None ∧
  has id st' = false ∧
  logs = (if has id st
          then [Logger.log Logger.Info [("sessionId", Logger.FStr id)]
                  "Deleted session access data from memory"]
          else []).
Proof.
  unfold delete, map_delete, has, get. simpl.
  split; [done|]. split; [apply lookup_delete_eq|]. split; [|done].
  apply bool_decide_eq_false. rewrite lookup_delete_eq. by intros [? ?].
Qed.

End MemoryStoreFacts.

(** ** Relay addresses *)

Section RelayFacts.
Import RelayConnection.

Lemma digit_not_space (a : ascii) :
  is_Some (Js.digit_value a) → Js.is_white_space a = false.
Proof.
  unfold Js.digit_value, Js.is_white_space. intros [d Hd].
  destruct (48 <=? Z.of_N (N_of_ascii a)) eqn:E1; [|done].
  apply Z.leb_le in E1.
  destruct (N_of_ascii a <=? 13)%N eqn:E2; [apply N.leb_le in E2; lia|].
  destruct (N_of_ascii a =? 32)%N eqn:E3; [apply N.eqb_eq in E3; lia|].
  destruct (N_of_ascii a =? 160)%N eqn:E4.
  - apply N.eqb_eq in E4. rewrite E4 in Hd. simpl in Hd. discriminate.
  - by rewrite andb_false_r.
Qed.

Lemma digit_not_sign (a : ascii) :
  is_Some (Js.digit_value a) → a ≠ "-"%char ∧ a ≠ "+"%char.
Proof.
  intros [d Hd]. split; intros ->; vm_compute in Hd; discriminate.
Qed.

Lemma leading_digit (a : ascii) (rest : string) :
  is_Some (Js.digit_value a) → Js.leading_digits (String a rest) ≠ [].
Proof. intros [d Hd]. simpl. by rewrite Hd. Qed.

Lemma parseInt10_digit_first (a : ascii) (rest : string) :
  is_Some (Js.digit_value a) → is_Some (Js.parseInt10 (String a rest)).
Proof.
  intros Ha. unfold Js.parseInt10.
  assert (Js.trim_start (String a rest) = String a rest) as ->.
  { simpl. by rewrite (digit_not_space a Ha). }
  destruct (digit_not_sign a Ha) as [Hm Hp].
  assert ((match String a rest with
           | String "-"%char r => (-1, r)
           | String "+"%char r => (1, r)
           | _ => (1, String a rest)
           end) = (1, String a rest)) as ->.
  { destruct a as [[] [] [] [] [] [] [] []]; try reflexivity; congruence. }
  pose proof (leading_digit a rest Ha) as Hne.
  destruct (Js.leading_digits (String a rest)); [done|eauto].
Qed.

(** A valid integer is never NaN for [parseInt]. *)
Lemma parseInt10_decimal_integer (s : string) :
  is_decimal_integer s = true → is_Some (Js.parseInt10 s).
Proof.
  destruct s as [|a [|b rest]]; [done| |].
  - intros H. apply parseInt10_digit_first.
    destruct a as [[] [] [] [] [] [] [] []]; simpl in H;
      try discriminate; vm_compute; eauto.
  - intros H.
    destruct (decide (a = "-"%char)) as [->|Hm];
      [|destruct (decide (a = "+"%char)) as [->|Hp]].
    + simpl in H. apply andb_true_iff in H as [Hb _].
      apply bool_decide_eq_true in Hb.
      unfold Js.parseInt10. simpl Js.trim_start. cbv iota beta.
      pose proof (leading_digit b rest Hb) as Hne.
      destruct (Js.leading_digits (String b rest)); [done|eauto].
    + simpl in H. apply andb_true_iff in H as [Hb _].
      apply bool_decide_eq_true in Hb.
      unfold Js.parseInt10. simpl Js.trim_start. cbv iota beta.
      pose proof (leading_digit b rest Hb) as Hne.
      destruct (Js.leading_digits (String b rest)); [done|eauto].
    + apply parseInt10_digit_first.
      assert (bool_decide (is_Some (Js.digit_value a)) = true) as Ha.
      { destruct a as [[] [] [] [] [] [] [] []];
          try congruence; simpl in H; try discriminate H; by vm_compute. }
      by apply bool_decide_eq_true in Ha.
Qed.

End RelayFacts.

Section RelayAddress.
Import Tls RelayConnection.

Lemma relay_handshake_no_connect (host : string) (port : Z) (s : TLSSocket)
    (ev : option SocketEvent) :
  List.filter is_connect (awaitHandshake host port s ev).1 = [].
Proof.
  destruct ev as [[h| |]|]; simpl; try done.
  by destruct (authorized h).
Qed.

Lemma relay_connects_once (config : TRelayConnectionConfig) (host : string)
    (port : Z) (ev : option SocketEvent) :
  parseRelayHost (relayHost config) = Js.Returned (host, port) →
  List.filter is_connect (createRelayConnection config ev).1
  = [EConnect (relaySocket config host port)].
Proof.
  intros Hp. unfold createRelayConnection. rewrite Hp.
  pose proof (relay_handshake_no_connect host port
                (relaySocket config host port) ev) as Hn.
  destruct (awaitHandshake host port (relaySocket config host port) ev)
    as [eff [u|m|]]; simpl in *;
    rewrite ?List.filter_app, Hn; done.
Qed.

Lemma parseRelayHost_bare (host : string) :
  Js.includes ":" host = false → parseRelayHost host = Js.Returned (host, 8443).
Proof. intros H. unfold parseRelayHost. by rewrite H. Qed.

Lemma parseRelayHost_pair (host seg : string) :
  Js.includes ":" host = false → Js.includes ":" seg = false →
  parseRelayHost (host +:+ ":" +:+ seg)
  = match Js.parseInt10 seg with
    | None => Js.Threw ("Invalid port in relay host: " +:+ host +:+ ":" +:+ seg)
    | Some p => Js.Returned (host, p)
    end.
Proof.
  intros Hh Hs. unfold parseRelayHost.
  change (":" +:+ seg) with (String ":"%char seg).
  rewrite includes_sep, (split_two _ _ _ Hh Hs). simpl. done.
Qed.

(** C5, as stated, fails: the port segment ["8443abc"] is not a valid
    integer, yet the address is accepted and the connection goes to port
    8443. *)
Lemma port_with_trailing_text_is_accepted :
  let config := {| relayHost := "relay.example.com:8443abc";
                   relayClientCert := "cert"; relayClientKey := "key";
                   relayServerCertChain := "ca" |} in
  Js.split ":" (relayHost config) = ["relay.example.com"; "8443abc"] ∧
  is_decimal_integer "8443abc" = false ∧
  parseRelayHost (relayHost config) = Js.Returned ("relay.example.com", 8443) ∧
  List.filter is_connect (createRelayConnection config (Some TimeoutEvent)).1
  = [EConnect (relaySocket config "relay.example.com" 8443)].
Proof. by vm_compute. Qed.

(** C5, amended: an address without [':'] is used as the host with port
    8443.  For ["host:segment"], [createRelayConnection] fails with the
    "Invalid port in relay host" error, before any connection attempt,
    exactly when [parseInt(segment, 10)] is NaN, that is when the segment
    has no decimal digit after optional leading white space and one
    optional sign; otherwise it connects once, to the integer read from the
    leading digits, also when other text follows them.  A segment that is a
    valid integer is never refused. *)
Theorem relay_address_port (config : TRelayConnectionConfig)
    (ev : option SocketEvent) (host seg : string) :
  Js.includes ":" host = false →
  Js.includes ":" seg = false →
  (relayHost config = host →
   List.filter is_connect (createRelayConnection config ev).1
   = [EConnect (relaySocket config host 8443)]) ∧
  (relayHost config = host +:+ ":" +:+ seg →
   match Js.parseInt10 seg with
   | None =>
       createRelayConnection config ev
       = ([], Rejected ("Invalid port in relay host: " +:+ relayHost config))
   | Some port =>
       List.filter is_connect (createRelayConnection config ev).1
       = [EConnect (relaySocket config host port)]
   end) ∧
  (is_decimal_integer seg = true → is_Some (Js.parseInt10 seg)).
Proof.
  intros Hh Hs. split; [|split].
  - intros E. apply relay_connects_once. rewrite E. by apply parseRelayHost_bare.
  - intros E. pose proof (parseRelayHost_pair host seg Hh Hs) as Hp.
    rewrite <- E in Hp.
    destruct (Js.parseInt10 seg) as [port|].
    + by apply relay_connects_once.
    + unfold createRelayConnection. by rewrite Hp.
  - apply parseInt10_decimal_integer.
Qed.

Lemma relay_address_port_witness :
  let config := {| relayHost := "relay.example.com:9443";
                   relayClientCert := "cert"; relayClientKey := "key";
                   relayServerCertChain := "ca" |} in
  List.filter is_connect (createRelayConnection config (Some TimeoutEvent)).1
  = [EConnect (relaySocket config "relay.example.com" 9443)].
Proof.
  intros config.
  pose proof (relay_address_port config (Some TimeoutEvent)
                "relay.example.com" "9443" eq_refl eq_refl) as (_ & H & _).
  exact (H eq_refl).
Defined.

End RelayAddress.

(** ** The gateway handshake *)

Section GatewayFacts.
Import Tls GatewayConnection.

Lemma append_assoc (a b c : string) : (a +:+ b) +:+ c = a +:+ b +:+ c.
Proof.
  induction a as [|x a IH]; [done|].
  rewrite !append_cons. by rewrite IH.
Qed.

(** C8: when the handshake completes and the negotiated application
    protocol is not ['infisical-pam-proxy'] (none negotiated included),
    [createGatewayConnection] does not resolve to a socket; with an
    authorized peer, which is what [rejectUnauthorized: true] lets reach
    this point, it rejects with the ALPN mismatch error, whose message
    names the expected protocol and the actual one (['none'] when there is
    none). *)
Theorem alpn_mismatch_rejected (relayConn : TLSSocket)
    (config : TGatewayConnectionConfig) (h : Handshake) :
  alpnProtocol h ≠ Some ALPN_PAM_PROXY →
  let actual := Js.or_default (alpnProtocol h) "none" in
  let result := createGatewayConnection relayConn config (Some (SecureConnect h)) in
  (∃ m, result.2 = Rejected m) ∧
  (authorized h = true →
   ∃ m, result.2 = Rejected m ∧
        m = "Gateway ALPN protocol mismatch: expected 'infisical-pam-proxy', got '"
            +:+ actual +:+ "'" ∧
        Js.includes ALPN_PAM_PROXY m = true ∧
        Js.includes actual m = true).
Proof.
  intros Hne actual result. subst result.
  unfold createGatewayConnection, awaitHandshake.
  assert (bool_decide (alpnProtocol h = Some ALPN_PAM_PROXY) = false) as Hb
    by by apply bool_decide_eq_false.
  destruct (authorized h) eqn:Ha; simpl; rewrite ?Hb; simpl.
  - split; [eauto|]. intros _. eexists. split; [reflexivity|].
    split; [reflexivity|]. split.
    + apply (includes_middle ALPN_PAM_PROXY
               "Gateway ALPN protocol mismatch: expected '"
               ("', got '" +:+ actual +:+ "'")).
    + fold actual.
      change (Js.includes actual
                (("Gateway ALPN protocol mismatch: expected '"
                  +:+ ALPN_PAM_PROXY +:+ "', got '") +:+ actual +:+ "'") = true).
      apply includes_middle.
  - split; [eauto|]. intros [=].
Qed.

Lemma alpn_mismatch_rejected_witness :
  let h := {| authorized := true; authorizationError := None;
              alpnProtocol := Some "h2"; getProtocol := "TLSv1.3";
              getCipherName := Some "TLS_AES_256_GCM_SHA384" |} in
  let relay := RelayConnection.relaySocket
                 {| RelayConnection.relayHost := "relay.example.com";
                    RelayConnection.relayClientCert := "cert";
                    RelayConnection.relayClientKey := "key";
                    RelayConnection.relayServerCertChain := "ca" |}
                 "relay.example.com" 8443 in
  let config := {| gatewayClientCert := "gcert"; gatewayClientKey := "gkey";
                   gatewayServerCertChain := "gca" |} in
  (createGatewayConnection relay config (Some (SecureConnect h))).2
  = Rejected "Gateway ALPN protocol mismatch: expected 'infisical-pam-proxy', got 'h2'".
Proof.
  intros h relay config.
  assert (alpnProtocol h ≠ Some ALPN_PAM_PROXY) as Hne by (by vm_compute).
  destruct (alpn_mismatch_rejected relay config h Hne) as [_ H].
  destruct (H eq_refl) as (m & Hm & -> & _). exact Hm.
Defined.

End GatewayFacts.

(** ** Query execution *)

Section QueryFacts.
Import QueryExecution.
Context {Row : Type}.

Lemma slice0_take (l : list Row) (e : Z) :
  0 ≤ e → Js.slice0 l e = take (Z.to_nat e) l.
Proof.
  intros He. unfold Js.slice0.
  destruct (e <? 0) eqn:E; [apply Z.ltb_lt in E; lia|].
  destruct (decide (e ≤ Z.of_nat (length l))) as [Hle|Hgt].
  - by rewrite Z.min_l.
  - rewrite Z.min_r by lia. rewrite Nat2Z.id.
    rewrite !take_ge; [done|lia|lia].
Qed.

Lemma slice0_length (l : list Row) (e : Z) :
  0 ≤ e → Z.of_nat (length (Js.slice0 l e)) = Z.min (Z.of_nat (length l)) e.
Proof. intros He. rewrite slice0_take, length_take by done. lia. Qed.

Lemma substring0_length (s : string) (n : nat) :
  String.length (String.substring 0 n s) = Nat.min n (String.length s).
Proof.
  revert n. induction s as [|a s IH]; intros [|n]; simpl; try done.
  by rewrite IH.
Qed.

Lemma substring0_prefix (s : string) (n : nat) :
  String.prefix (String.substring 0 n s) s = true.
Proof.
  revert n. induction s as [|a s IH]; intros [|n]; simpl; try done.
  destruct (ascii_dec a a); [apply IH|congruence].
Qed.

(** C3, as stated, fails: for a statement whose command tag counts rows
    that are not returned (say an UPDATE of three rows), the driver's
    result is an empty array with [count = 3]; the reply then has no rows
    and [rowCount = 3], so no "actual row count" makes both halves of the
    claim true. *)
Lemma row_count_is_the_command_count :
  let credentials := {| username := "alice"; password := "s3cret";
                        database := "appdb" |} in
  let s : Settlement nat :=
    {| outcome := Fulfilled {| items := []; count := Some 3; columns := None |};
       startTime := 100; endTime := 105; endError := None |} in
  ∃ r, (executeQueryThroughGateway None "UPDATE t SET x = 1" credentials None s).2
       = Js.Returned r ∧
       rows r = [] ∧ rowCount r = 3 ∧
       ¬ (∃ actualRowCount : Z,
             Z.of_nat (length (rows r)) = Z.min actualRowCount 1000 ∧
             rowCount r = actualRowCount).
Proof.
  eexists. split; [reflexivity|]. simpl. split; [done|]. split; [done|].
  intros (n & H1 & H2). lia.
Qed.

(** C3, amended: for every successful execution with a row cap
    [maxRows >= 0] (1000 when omitted), the returned rows are the first
    [maxRows] rows of the driver's result, so their number is the minimum
    of the number of rows the driver returned and [maxRows]; [rowCount] is
    the driver's [count] when it reports one and otherwise the number of
    rows it returned.  It equals the untruncated number of returned rows
    when [count] is absent or agrees with it. *)
Theorem rows_capped_count_reported (gatewayConn : option Tls.TLSSocket)
    (query : string) (credentials : TQueryCredentials)
    (options : option TQueryOptions) (s : Settlement Row)
    (result : DriverResult Row) :
  outcome s = Fulfilled result →
  0 ≤ resolved_maxRows options →
  let actual := Z.of_nat (length (items result)) in
  (options ≫= maxRows = None → resolved_maxRows options = 1000) ∧
  ∃ r, (executeQueryThroughGateway gatewayConn query credentials options s).2
       = Js.Returned r ∧
       rows r = take (Z.to_nat (resolved_maxRows options)) (items result) ∧
       Z.of_nat (length (rows r)) = Z.min actual (resolved_maxRows options) ∧
       rowCount r = default actual (count result) ∧
       (count result = None ∨ count result = Some actual → rowCount r = actual).
Proof.
  intros Ho Hm actual. split.
  { intros E. unfold resolved_maxRows. by rewrite E. }
  unfold executeQueryThroughGateway, settle. simpl. rewrite Ho.
  eexists. split; [reflexivity|]. simpl.
  split; [by apply slice0_take|]. split; [by apply slice0_length|].
  split; [done|]. by intros [-> | ->].
Qed.

(** C6, as stated, fails: the raised error carries no preview of the query
    (the preview goes to the log), and it repeats the cause's message,
    which may name the database user. *)
Lemma raised_error_has_no_preview :
  let credentials := {| username := "alice"; password := "s3cret";
                        database := "appdb" |} in
  let s : Settlement nat :=
    {| outcome :=
         Failed (Js.ThrownError "password authentication failed for user alice");
       startTime := 100; endTime := 105; endError := None |} in
  ∃ m, (executeQueryThroughGateway None "SELECT 1" credentials None s).2
       = Js.Threw m ∧
       Js.includes (Js.substring0 100 "SELECT 1") m = false ∧
       Js.includes (username credentials) m = true.
Proof. eexists. split; [reflexivity|]. by vm_compute. Qed.

(** C6, amended: on every failing execution the function writes an error
    line to the log that carries the database name, the cause's message
    and a preview made of the first 100 characters of the query, and
    raises an error whose message is ["Query execution failed: "] followed
    by the cause's message; the function itself puts neither the query
    nor the credentials into the raised message. *)
Theorem failure_logged_with_preview (gatewayConn : option Tls.TLSSocket)
    (query : string) (credentials : TQueryCredentials)
    (options : option TQueryOptions) (s : Settlement Row) (error : Js.thrown) :
  outcome s = Failed error →
  let preview := Js.substring0 100 query in
  let result := executeQueryThroughGateway gatewayConn query credentials options s in
  result.2 = Js.Threw ("Query execution failed: " +:+ Js.thrown_text error) ∧
  Logger.log Logger.Error
    [("database", Logger.FStr (database credentials));
     ("error", Logger.FStr (Js.thrown_text error));
     ("queryPreview", Logger.FStr preview)]
    "Query execution failed" ∈ result.1 ∧
  Js.str_length preview = Z.min 100 (Js.str_length query) ∧
  String.prefix preview query = true.
Proof.
  intros Ho preview result. subst result preview.
  unfold executeQueryThroughGateway, settle. simpl. rewrite Ho. simpl.
  split; [done|]. split; [set_solver|]. split.
  - unfold Js.str_length, Js.substring0. rewrite substring0_length. lia.
  - apply substring0_prefix.
Qed.

End QueryFacts.

Lemma rows_capped_count_reported_witness :
  let credentials := {| QueryExecution.username := "alice"; QueryExecution.password := "s3cret";
                        QueryExecution.database := "appdb" |} in
  let result := {| QueryExecution.items := [10%nat; 20%nat; 30%nat]; QueryExecution.count := Some 3;
                   QueryExecution.columns := None |} in
  let s := {| QueryExecution.outcome := QueryExecution.Fulfilled result;
              QueryExecution.startTime := 100; QueryExecution.endTime := 105; QueryExecution.endError := None |} in
  let options := Some {| QueryExecution.maxRows := Some 2; QueryExecution.timeout := None |} in
  ∃ r, (QueryExecution.executeQueryThroughGateway None "SELECT n FROM t" credentials options s).2
       = Js.Returned r ∧
       QueryExecution.rows r = [10%nat; 20%nat] ∧ QueryExecution.rowCount r = 3.
Proof.
  intros credentials result s options.
  assert (0 ≤ QueryExecution.resolved_maxRows options) as Hm by (vm_compute; discriminate).
  destruct (rows_capped_count_reported None "SELECT n FROM t" credentials
              options s result eq_refl Hm)
    as (_ & r & Hr & Hrows & _ & Hcount & _).
  exists r. split; [exact Hr|]. split; [exact Hrows|exact Hcount].
Defined.

Lemma failure_logged_with_preview_witness :
  let credentials := {| QueryExecution.username := "alice";
                        QueryExecution.password := "s3cret";
                        QueryExecution.database := "appdb" |} in
  let s : QueryExecution.Settlement nat :=
    {| QueryExecution.outcome :=
         QueryExecution.Failed (Js.ThrownError "syntax error at or near FROM");
       QueryExecution.startTime := 100; QueryExecution.endTime := 105;
       QueryExecution.endError := None |} in
  (QueryExecution.executeQueryThroughGateway None "SELECT FROM" credentials None s).2
  = Js.Threw "Query execution failed: syntax error at or near FROM".
Proof.
  intros credentials s.
  exact (proj1 (failure_logged_with_preview None "SELECT FROM" credentials None
                  s (Js.ThrownError "syntax error at or near FROM") eq_refl)).
Defined.

(** ** The session channel *)

Lemma sample_channel_is_ready :
  ∃ effects,
    SessionChannel.openChannel "session-1" sample_store sample_opening
    = SessionChannel.Ready effects ready_channel.
Proof. eexists. by vm_compute. Qed.

Section ChannelFacts.
Import SessionChannel.
Context {Row : Type}.
Implicit Types ch : Channel Row.

Lemma find_inflight_app (id : nat) (l1 l2 : list (nat * Validated)) (v : Validated) :
  find_inflight id l1 = Some v → find_inflight id (l1 ++ l2) = Some v.
Proof.
  unfold find_inflight. induction l1 as [|[i w] l1 IH]; simpl; [done|].
  destruct (Nat.eqb i id); [done|apply IH].
Qed.

(** Once the bundle of a session was deleted, a channel for it is refused
    with the "not found or expired" close reason, before any connection is
    attempted. *)
Lemma deleted_session_is_refused (sid : string)
    (store : gmap string MemoryStore.TSessionAccessData) (o : Opening)
    (name : string) :
  status (session o) = OtherStatus name →
  expired (session o) (now o) = false →
  canRead o = true →
  @openChannel Row sid (MemoryStore.delete sid store).1.1 o
  = Refused 4404 "Session data not found or expired".
Proof.
  intros Hs He Hc. unfold openChannel. rewrite Hs, He, Hc. simpl.
  unfold MemoryStore.get. by rewrite lookup_delete_eq.
Qed.

(** A query that fails is answered by nothing: the handler's promise
    rejects and nobody awaits it; the socket stays open. *)
Lemma failed_query_sends_nothing ch (id : nat) (v : Validated)
    (s : QueryExecution.Settlement Row) (error : Js.thrown) :
  find_inflight id (inflight ch) = Some v →
  QueryExecution.outcome s = QueryExecution.Failed error →
  let ch' := onSettled id s ch in
  sent ch' = sent ch ∧
  socketOpen ch' = socketOpen ch ∧
  rejections ch'
  = rejections ch ++ ["Query execution failed: " +:+ Js.thrown_text error].
Proof.
  intros Hf Ho. unfold onSettled, QueryExecution.settle.
  rewrite Hf, Ho. simpl. done.
Qed.

Lemma successful_query_is_answered ch (id : nat) (v : Validated)
    (s : QueryExecution.Settlement Row) (result : QueryExecution.DriverResult Row) :
  find_inflight id (inflight ch) = Some v →
  QueryExecution.outcome s = QueryExecution.Fulfilled result →
  socketOpen ch = true →
  ∃ r, (QueryExecution.settle (v_query v)
          (queryCredentials (MemoryStore.credentials (accessData ch)))
          (v_options v) s).2 = Js.Returned r ∧
       sent (onSettled id s ch) = sent ch ++ [Wire.query_result r].
Proof.
  intros Hf Ho Hopen. unfold onSettled, QueryExecution.settle.
  rewrite Hf, Ho. simpl. rewrite Hopen. eauto.
Qed.

(** C2, amended: an [execute_query] message that arrives while a query is
    in flight is not rejected.  Nothing is sent in reply to its arrival
    and no handler fails; a further execution is started on the same
    gateway connection next to the ones in flight, which stay in flight.
    Every execution in flight that then succeeds, the earlier ones
    included, has its [query_result] sent while the socket is open. *)
Theorem overlapping_query_is_started ch (parsed : Wire.WSMessage Row)
    (validated : Validated) :
  parseMessage parsed = Some validated →
  let ch' := onMessage (Json parsed) ch in
  sent ch' = sent ch ∧
  rejections ch' = rejections ch ∧
  socketOpen ch' = socketOpen ch ∧
  gatewayConn ch' = gatewayConn ch ∧
  inflight ch' = inflight ch ++ [(nextId ch, validated)] ∧
  (∀ id v, find_inflight id (inflight ch) = Some v →
           find_inflight id (inflight ch') = Some v) ∧
  (∀ id v s result,
      find_inflight id (inflight ch') = Some v →
      QueryExecution.outcome s = QueryExecution.Fulfilled result →
      socketOpen ch = true →
      ∃ r, sent (onSettled id s ch') = sent ch ++ [Wire.query_result r] ∧
           QueryExecution.rowCount r
           = default (Z.of_nat (length (QueryExecution.items result)))
                     (QueryExecution.count result)).
Proof.
  intros Hp ch'. subst ch'. unfold onMessage. rewrite Hp. simpl.
  repeat (split; [done|]). split.
  - intros id v. apply find_inflight_app.
  - intros id v s result Hf Ho Hopen.
    set (ch' := with_inflight _ _ _) in *.
    destruct (successful_query_is_answered ch' id v s result Hf Ho Hopen)
      as (r & Hr & Hs).
    exists r. split; [exact Hs|].
    unfold QueryExecution.settle in Hr. rewrite Ho in Hr. simpl in Hr.
    by injection Hr as <-.
Qed.


End ChannelFacts.

(** C1, evaluated: the first query of an established channel fails.
    Nothing is sent for it, no [query_error] in particular; the handler's
    rejection is all that is left of the failure.  The channel stays
    open, and the next query is executed and answered. *)
Lemma failed_query_gets_no_reply :
  let ch1 := SessionChannel.run ready_channel
               [SessionChannel.Message (ask "SELECT * FROM missing");
                SessionChannel.Settled 0 (fails_with "relation missing does not exist")] in
  let ch2 := SessionChannel.run ch1
               [SessionChannel.Message (ask "SELECT 1");
                SessionChannel.Settled 1 (yields [1%nat])] in
  SessionChannel.sent ch1 = SessionChannel.sent ready_channel ∧
  SessionChannel.rejections ch1
  = ["Query execution failed: relation missing does not exist"] ∧
  SessionChannel.socketOpen ch1 = true ∧
  SessionChannel.ended ch1 = [] ∧
  SessionChannel.sent ch2 = SessionChannel.sent ready_channel ++ [reply [1%nat]].
Proof. by vm_compute. Qed.

(** C2, as stated, fails: a second [execute_query] arrives while the first
    is in flight.  It is not rejected: nothing is sent in reply, both
    queries are in flight on the same gateway connection, and both results
    are delivered, here in the opposite order. *)
Lemma second_query_runs_alongside_first :
  let ch1 := SessionChannel.run ready_channel
               [SessionChannel.Message (ask "SELECT pg_sleep(5)");
                SessionChannel.Message (ask "SELECT 1")] in
  let ch2 := SessionChannel.run ch1
               [SessionChannel.Settled 1 (yields [1%nat]);
                SessionChannel.Settled 0 (yields [0%nat])] in
  fst <$> SessionChannel.inflight ch1 = [0%nat; 1%nat] ∧
  SessionChannel.sent ch1 = SessionChannel.sent ready_channel ∧
  SessionChannel.rejections ch1 = [] ∧
  SessionChannel.sent ch2
  = SessionChannel.sent ready_channel ++ [reply [1%nat]; reply [0%nat]].
Proof. by vm_compute. Qed.

Lemma overlapping_query_is_started_witness :
  let first := SessionChannel.onMessage (ask "SELECT pg_sleep(5)") ready_channel in
  let second := SessionChannel.onMessage (ask "SELECT 1") first in
  SessionChannel.sent second = SessionChannel.sent first ∧
  fst <$> SessionChannel.inflight second = [0%nat; 1%nat].
Proof.
  intros first second.
  destruct (overlapping_query_is_started first
              (Wire.execute_query "SELECT 1"
                 {| Wire.opt_maxRows := Some 1000; Wire.opt_timeout := None |})
              {| SessionChannel.v_query := "SELECT 1";
                 SessionChannel.v_options :=
                   Some {| QueryExecution.maxRows := Some 1000;
                           QueryExecution.timeout := None |} |}
              eq_refl)
    as (Hs & _ & _ & _ & Hi & _).
  split; [exact Hs|]. unfold second, ask. rewrite Hi. reflexivity.
Defined.



(** ** The reconnecting client *)

Section ClientFacts.
Import PamWebSocket.
Context {Row : Type}.
Implicit Types h : Hook Row.

Lemma reconnectDelay_small (n : Z) :
  0 ≤ n ≤ 4 →
  reconnectDelay n = 1000 * 2 ^ n ∧
  Some (reconnectDelay n) = [1000; 2000; 4000; 8000; 16000] !! Z.to_nat n.
Proof.
  intros Hn.
  assert (n = 0 ∨ n = 1 ∨ n = 2 ∨ n = 3 ∨ n = 4) as Hc by lia.
  destruct Hc as [-> | [-> | [-> | [-> | ->]]]]; by vm_compute.
Qed.

Lemma onclose_schedules h :
  shouldReconnectRef h = true →
  reconnectAttemptsRef h < MAX_RECONNECT_ATTEMPTS →
  connectionStatus (onclose h) = reconnecting ∧
  timers (onclose h)
  = timers h ++ [(nextTimer h, reconnectDelay (reconnectAttemptsRef h))] ∧
  reconnectAttemptsRef (onclose h) = reconnectAttemptsRef h.
Proof.
  intros Hs Hn. unfold onclose. simpl. rewrite Hs.
  apply Z.ltb_lt in Hn. rewrite Hn. simpl. done.
Qed.

Lemma onclose_gives_up h :
  MAX_RECONNECT_ATTEMPTS ≤ reconnectAttemptsRef h →
  connectionStatus (onclose h) = disconnected ∧
  timers (onclose h) = timers h ∧
  wsRef (onclose h) = None.
Proof.
  intros Hn. unfold onclose. simpl.
  assert ((reconnectAttemptsRef h <? MAX_RECONNECT_ATTEMPTS) = false) as ->
    by by apply Z.ltb_ge.
  rewrite andb_false_r. done.
Qed.

(** Without a socket and without a pending timer, a disconnected hook
    stays as it is whatever the user does. *)
Lemma idle_stays_disconnected h (es : list (Event Row)) :
  wsRef h = None → timers h = [] → connectionStatus h = disconnected →
  Forall (λ e, from_socket e = false) es →
  wsRef (run h es) = None ∧ timers (run h es) = [] ∧
  connectionStatus (run h es) = disconnected.
Proof.
  intros Hw Ht Hc Hes. revert h Hw Ht Hc.
  induction Hes as [|e es He _ IH]; intros h Hw Ht Hc; [done|].
  simpl. destruct e; try discriminate He; simpl.
  - assert (ontimer handle env h = h) as ->; [|by apply IH].
    unfold ontimer, pending. by rewrite Ht.
  - apply IH; unfold executeQuery; by rewrite Hw.
Qed.

(** C4: a close that finds the attempt counter at [n], for [n] from 0 to
    4, schedules one reconnect after [min(1000 * 2^n, 30000)] ms, which is
    1000, 2000, 4000, 8000, 16000; a close that finds the counter at 5 or
    more schedules nothing and leaves the status [disconnected]; [onopen]
    sets the counter to zero.  Run from mount: the first connection and
    then reconnects fail one after the other; the reconnects are
    scheduled after exactly these delays, and once five of them have
    failed nothing is pending and the status is [disconnected], for good:
    with no socket and no timer left, nothing but a new mount connects
    again. *)
Theorem reconnect_backoff h (n : Z) :
  (shouldReconnectRef h = true → reconnectAttemptsRef h = n → 0 ≤ n ≤ 4 →
   connectionStatus (onclose h) = reconnecting ∧
   timers (onclose h) = timers h ++ [(nextTimer h, Z.min (1000 * 2 ^ n) 30000)] ∧
   Some (Z.min (1000 * 2 ^ n) 30000)
   = [1000; 2000; 4000; 8000; 16000] !! Z.to_nat n) ∧
  (5 ≤ reconnectAttemptsRef h →
   connectionStatus (onclose h) = disconnected ∧
   timers (onclose h) = timers h) ∧
  reconnectAttemptsRef (onopen h) = 0 ∧
  ((λ k, pendingDelays (@after_failed_reconnects Row k)) <$> [0; 1; 2; 3; 4]%nat
   = [[1000]; [2000]; [4000]; [8000]; [16000]] ∧
   pendingDelays (@after_failed_reconnects Row 5) = [] ∧
   connectionStatus (@after_failed_reconnects Row 5) = disconnected ∧
   reconnectAttemptsRef (@after_failed_reconnects Row 5) = 5 ∧
   reconnectAttemptsRef (run (@after_failed_reconnects Row 3)
                             [Timer 3%nat online; Open]) = 0 ∧
   ∀ es, Forall (λ e, from_socket e = false) es →
         connectionStatus (run (@after_failed_reconnects Row 5) es) = disconnected ∧
         pendingDelays (run (@after_failed_reconnects Row 5) es) = []).
Proof.
  split; [|split; [|split]].
  - intros Hs Hn Hr.
    destruct (onclose_schedules h Hs) as (H1 & H2 & _).
    { rewrite Hn. unfold MAX_RECONNECT_ATTEMPTS. lia. }
    destruct (reconnectDelay_small n Hr) as [_ H3].
    rewrite Hn in H2. done.
  - intros Hn. destruct (onclose_gives_up h Hn) as (H1 & H2 & _). done.
  - done.
  - repeat (split; [by vm_compute|]).
    intros es Hes.
    destruct (idle_stays_disconnected (after_failed_reconnects 5) es)
      as (_ & Ht & Hc); [by vm_compute..|done|].
    unfold pendingDelays. by rewrite Ht.
Qed.

(** C10: a [query_result] message stores its payload as the last result
    and clears the last error; a [query_error] message stores an error
    (the message's, or "Unknown error") and clears the last result. *)
Theorem outcome_clears_the_other h (m : Wire.WSMessage Row) :
  (Wire.type m = "query_result" →
   lastResult (onmessage (Json m) h) = Wire.data m ∧
   lastError (onmessage (Json m) h) = None ∧
   isExecuting (onmessage (Json m) h) = false) ∧
  (Wire.type m = "query_error" →
   lastError (onmessage (Json m) h)
   = Some (default {| Wire.err_message := "Unknown error"; Wire.err_code := None |}
                   (Wire.error m)) ∧
   lastResult (onmessage (Json m) h) = None ∧
   isExecuting (onmessage (Json m) h) = false).
Proof.
  split; intros Ht; unfold onmessage; rewrite Ht; simpl; done.
Qed.

(** After [executeQuery] on an open socket the hook is executing, and a
    frame it cannot parse or whose type it does not know leaves it so. *)
Lemma executing_until_outcome h (q : string) (o : option ExecuteQueryOptions) :
  wsRef h = Some OPEN →
  isExecuting (executeQuery q o h) = true ∧
  isExecuting (onmessage NotJson (executeQuery q o h)) = true.
Proof. intros Hw. unfold executeQuery. rewrite Hw. done. Qed.

End ClientFacts.

Lemma reconnect_backoff_witness :
  let h := @after_failed_reconnects nat 2 in
  PamWebSocket.timers (PamWebSocket.onclose h)
  = PamWebSocket.timers h ++ [(PamWebSocket.nextTimer h, 4000)].
Proof.
  intros h.
  destruct (reconnect_backoff h 2) as (H & _).
  assert (0 ≤ 2 ≤ 4) as Hr by lia.
  exact (proj1 (proj2 (H eq_refl eq_refl Hr))).
Defined.

Lemma outcome_clears_the_other_witness :
  let h := PamWebSocket.run mounted
             [PamWebSocket.Open;
              PamWebSocket.ExecuteQuery "SELECT * FROM missing" None;
              PamWebSocket.Message
                (PamWebSocket.Json
                   (Wire.query_error {| Wire.err_message := "no such table";
                                        Wire.err_code := None |}));
              PamWebSocket.ExecuteQuery "SELECT 1" None] in
  let h' := PamWebSocket.onmessage (PamWebSocket.Json (reply [1%nat])) h in
  PamWebSocket.lastError h' = None ∧
  PamWebSocket.lastResult h' = Wire.data (reply [1%nat]).
Proof.
  intros h h'.
  destruct (outcome_clears_the_other h (reply [1%nat])) as [H _].
  destruct (H eq_refl) as (Hr & He & _).
  split; [exact He|exact Hr].
Defined.

(* ===================================================================== *)
(** * Further properties of the code *)
(* ===================================================================== *)

(** ** The store as a map *)

Section StoreOperations.
Import MemoryStore.
Implicit Types st : gmap string TSessionAccessData.

(** X1: [set] keeps one bundle per id: afterwards [get] of that id is the
    new bundle, whatever was stored before, every other id is as it was,
    and the store grows by one exactly when the id was new. *)
Theorem store_set_overwrites (id id' : string) (d : TSessionAccessData) st :
  get id' (set id d st).1 = (if decide (id' = id) then Some d else get id' st) ∧
  size (set id d st).1 = (if has id st then size st else size st + 1).
Proof.
  unfold get, set, size, has. simpl. split.
  - destruct (decide (id' = id)) as [->|Hne].
    + apply lookup_insert_eq.
    + by apply lookup_insert_ne.
  - destruct (st !! id) as [old|] eqn:E.
    + rewrite bool_decide_eq_true_2 by eauto.
      rewrite map_size_insert_Some; eauto.
    + rewrite bool_decide_eq_false_2 by (by intros [? ?]).
      rewrite map_size_insert_None by done. lia.
Qed.

(** X2: [delete] of an id that is not stored changes nothing and logs
    nothing; [delete] never touches another id, and the store shrinks by
    one exactly when the id was stored. *)
Theorem store_delete_only_its_id (id : string) st :
  (get id st = None → delete id st = (st, [], Js.VUndefined)) ∧
  (∀ id', id' ≠ id → get id' (delete id st).1.1 = get id' st) ∧
  size (delete id st).1.1 = (if has id st then size st - 1 else size st).
Proof.
  unfold get, delete, map_delete, size, has. simpl. split; [|split].
  - intros E. rewrite delete_id by done.
    rewrite bool_decide_eq_false_2; [done|]. rewrite E. by intros [? ?].
  - intros id' Hne. by apply lookup_delete_ne.
  - destruct (st !! id) as [old|] eqn:E.
    + rewrite bool_decide_eq_true_2 by eauto.
      rewrite map_size_delete, E. simpl.
      pose proof (map_size_non_empty_iff st) as Hs.
      assert (base.size st ≠ 0%nat)
        by (apply Hs; intros ->; by rewrite lookup_empty in E).
      lia.
    + rewrite bool_decide_eq_false_2 by (by intros [? ?]).
      by rewrite delete_id.
Qed.

(** X3: after [clear] no id is stored any more, and the warning that is
    logged carries the number of bundles that were dropped. *)
Theorem store_clear_empties (id : string) st :
  get id (clear st).1 = None ∧
  has id (clear st).1 = false ∧
  size (clear st).1 = 0 ∧
  keys (clear st).1 = [] ∧
  (clear st).2 = [Logger.log Logger.Warn [("count", Logger.FNum (size st))]
                    "Cleared all session access data from memory"].
Proof.
  unfold get, has, size, keys, clear. simpl.
  rewrite lookup_empty, map_to_list_empty. repeat split; done.
Qed.

(** X4: [keys()] lists exactly the ids for which [has] is true, each
    once, and [size()] is their number. *)
Theorem store_keys_are_the_stored_ids (id : string) st :
  (id ∈ keys st ↔ has id st = true) ∧
  NoDup (keys st) ∧
  Z.of_nat (length (keys st)) = size st.
Proof.
  unfold keys, has, size. split; [|split].
  - rewrite bool_decide_eq_true. rewrite list_elem_of_fmap. split.
    + intros [[k v] [-> Hin]]. apply elem_of_map_to_list in Hin. eauto.
    + intros [v Hv]. exists (id, v). split; [done|]. by apply elem_of_map_to_list.
  - apply NoDup_fst_map_to_list.
  - rewrite length_fmap. by rewrite length_map_to_list.
Qed.

End StoreOperations.

Lemma store_delete_only_its_id_witness :
  MemoryStore.get "session-1" (MemoryStore.delete "session-2" sample_store).1.1
  = MemoryStore.get "session-1" sample_store.
Proof.
  destruct (store_delete_only_its_id "session-2" sample_store) as (_ & H & _).
  apply H. discriminate.
Defined.

(** ** Decimal numbers: what [parseInt] reads back *)

Section DecimalFacts.


Lemma leading_digits_uint (d : Decimal.uint) (tail : string) :
  Js.leading_digits (NilEmpty.string_of_uint d +:+ tail)
  = uint_digits d ++ Js.leading_digits tail.
Proof.
  induction d; rewrite ?append_nil, ?append_cons; simpl; try done;
    rewrite ?append_cons; by rewrite IHd.
Qed.

Lemma fold_digits_acc (d : Decimal.uint) (acc : positive) :
  fold_left (λ a k, a * 10 + k) (uint_digits d) (Z.pos acc)
  = Z.pos (Pos.of_uint_acc d acc).
Proof.
  revert acc. induction d; intros acc; simpl; try done;
    rewrite <- IHd; f_equal; lia.
Qed.

Lemma decimal_value_uint (d : Decimal.uint) :
  Js.decimal_value (uint_digits d) = Z.of_uint d.
Proof.
  unfold Js.decimal_value, Z.of_uint.
  induction d; simpl; try done; try apply (fold_digits_acc d).
Qed.

Lemma uint_string_head (d : Decimal.uint) :
  ∃ a rest, NilZero.string_of_uint d = String a rest ∧ is_Some (Js.digit_value a).
Proof.
  destruct d; simpl; eexists _, _; (split; [reflexivity|]); by vm_compute; eauto.
Qed.

Lemma uint_digits_nonempty (d : Decimal.uint) (tail : string) :
  Js.leading_digits (NilZero.string_of_uint d +:+ tail) ≠ [].
Proof.
  destruct (uint_string_head d) as (a & rest & -> & [k Hk]).
  rewrite append_cons. simpl. by rewrite Hk.
Qed.

Lemma nilzero_value (d : Decimal.uint) (tail : string) :
  Js.leading_digits tail = [] →
  Js.decimal_value (Js.leading_digits (NilZero.string_of_uint d +:+ tail))
  = Z.of_uint d.
Proof.
  intros Ht. unfold NilZero.string_of_uint.
  destruct d;
    [rewrite append_cons, append_nil; simpl; by rewrite Ht | ..];
    rewrite leading_digits_uint, Ht, app_nil_r; apply decimal_value_uint.
Qed.

Lemma parseInt10_unsigned (d : Decimal.uint) (tail : string) :
  Js.leading_digits tail = [] →
  Js.parseInt10 (NilZero.string_of_uint d +:+ tail) = Some (Z.of_uint d).
Proof.
  intros Ht.
  pose proof (nilzero_value d tail Ht) as Hv.
  pose proof (uint_digits_nonempty d tail) as Hne.
  destruct (uint_string_head d) as (a & rest & E & Ha).
  rewrite E in *. rewrite append_cons in *.
  unfold Js.parseInt10.
  assert (Js.trim_start (String a (rest +:+ tail)) = String a (rest +:+ tail)) as ->.
  { simpl. by rewrite (digit_not_space a Ha). }
  destruct (digit_not_sign a Ha) as [Hm Hp].
  assert ((match String a (rest +:+ tail) with
           | String "-"%char r => (-1, r)
           | String "+"%char r => (1, r)
           | _ => (1, String a (rest +:+ tail))
           end) = (1, String a (rest +:+ tail))) as ->.
  { destruct a as [[] [] [] [] [] [] [] []]; try reflexivity; congruence. }
  destruct (Js.leading_digits (String a (rest +:+ tail))) eqn:E2; [done|].
  rewrite Hv. f_equal. lia.
Qed.

(** [parseInt] reads back the number that was printed, whatever follows
    it, as long as that does not start with a digit. *)
Lemma parseInt10_show_Z (z : Z) (tail : string) :
  Js.leading_digits tail = [] →
  Js.parseInt10 (show_Z z +:+ tail) = Some z.
Proof.
  intros Ht. unfold show_Z.
  rewrite <- (DecimalZ.of_to z) at 2.
  destruct (Z.to_int z) as [d|d]; simpl NilZero.string_of_int.
  - by apply parseInt10_unsigned.
  - rewrite append_cons.
    pose proof (nilzero_value d tail Ht) as Hv.
    pose proof (uint_digits_nonempty d tail) as Hne.
    unfold Js.parseInt10. simpl Js.trim_start. cbv iota beta.
    destruct (Js.leading_digits (NilZero.string_of_uint d +:+ tail)); [done|].
    rewrite Hv. simpl Z.of_int. f_equal; lia.
Qed.



Lemma split_first (c : ascii) (host s : string) :
  Js.includes (String c "") host = false →
  Js.split c (host +:+ String c s) = host :: Js.split c s.
Proof.
  intros Hh. induction host as [|a host IH].
  - rewrite append_nil. simpl. by rewrite Ascii.eqb_refl.
  - rewrite append_cons. rewrite includes_char_cons in Hh.
    apply orb_false_iff in Hh as [Ha Hh].
    simpl. rewrite Ha, (IH Hh). done.
Qed.

End DecimalFacts.

(** ** Relay and gateway connections *)

Section TunnelFacts.
Import Tls.


(** X6: with more than one [':'] in the address, the host is what
    precedes the first one and the port is read from what stands between
    the first and the second; the rest is ignored.  An IPv6 literal such
    as ["::1"] is therefore refused as an invalid port. *)
Theorem relay_address_extra_colons (host seg rest : string) :
  Js.includes ":" host = false →
  Js.includes ":" seg = false →
  let address := host +:+ ":" +:+ seg +:+ ":" +:+ rest in
  RelayConnection.parseRelayHost address
  = match Js.parseInt10 seg with
    | None => Js.Threw ("Invalid port in relay host: " +:+ address)
    | Some port => Js.Returned (host, port)
    end.
Proof.
  intros Hh Hs address. subst address. unfold RelayConnection.parseRelayHost.
  change (":" +:+ seg +:+ ":" +:+ rest)
    with (String ":"%char (seg +:+ String ":"%char rest)).
  rewrite includes_sep, (split_first _ _ _ Hh), (split_first _ _ _ Hs). simpl. done.
Qed.

Lemma createRelayConnection_resolved (config : RelayConnection.TRelayConnectionConfig)
    (ev : option SocketEvent) (relayConn : TLSSocket) :
  (RelayConnection.createRelayConnection config ev).2 = Resolved relayConn ↔
  ∃ host port h,
    RelayConnection.parseRelayHost (RelayConnection.relayHost config)
    = Js.Returned (host, port) ∧
    ev = Some (SecureConnect h) ∧ authorized h = true ∧
    relayConn = RelayConnection.relaySocket config host port.
Proof.
  unfold RelayConnection.createRelayConnection.
  destruct (RelayConnection.parseRelayHost _) as [[host port]|m]; simpl.
  - destruct ev as [[h| |]|]; simpl.
    + destruct (authorized h) eqn:Ha; simpl.
      * split; [intros [= <-]; by exists host, port, h|].
        by intros (? & ? & ? & [= <- <-] & _ & _ & ->).
      * split; [done|]. intros (? & ? & ? & _ & [= <-] & ? & _). congruence.
    + split; [done|]. by intros (? & ? & ? & _ & ? & _).
    + split; [done|]. by intros (? & ? & ? & _ & ? & _).
    + split; [done|]. by intros (? & ? & ? & _ & ? & _).
  - split; [done|]. by intros (? & ? & ? & ? & _).
Qed.

Lemma createGatewayConnection_resolved (relayConn : TLSSocket)
    (config : GatewayConnection.TGatewayConnectionConfig)
    (ev : option SocketEvent) (gatewayConn : TLSSocket) :
  (GatewayConnection.createGatewayConnection relayConn config ev).2
  = Resolved gatewayConn ↔
  ∃ h, ev = Some (SecureConnect h) ∧ authorized h = true ∧
       alpnProtocol h = Some GatewayConnection.ALPN_PAM_PROXY ∧
       gatewayConn = GatewayConnection.gatewaySocket relayConn config.
Proof.
  unfold GatewayConnection.createGatewayConnection, GatewayConnection.awaitHandshake.
  destruct ev as [[h| |]|]; simpl.
  - destruct (authorized h) eqn:Ha; simpl.
    + destruct (decide (alpnProtocol h = Some GatewayConnection.ALPN_PAM_PROXY)) as [E|E].
      * rewrite bool_decide_eq_true_2 by done. simpl.
        split; [intros [= <-]; by exists h|]. by intros (? & _ & _ & _ & ->).
      * rewrite bool_decide_eq_false_2 by done. simpl.
        split; [done|]. intros (? & [= <-] & _ & ? & _). done.
    + split; [done|]. intros (? & [= <-] & ? & _). congruence.
  - split; [done|]. by intros (? & ? & _).
  - split; [done|]. by intros (? & ? & _).
  - split; [done|]. by intros (? & ? & _).
Qed.

(** X7: [createRelayConnection] hands back a socket exactly when the
    address parses and the first event of the handshake is
    ["secureConnect"] with an authorized peer; the socket is then the one
    to the parsed host and port, with the host as server name. *)
Theorem relay_resolves_iff_authorized (config : RelayConnection.TRelayConnectionConfig)
    (ev : option SocketEvent) (relayConn : TLSSocket) :
  (RelayConnection.createRelayConnection config ev).2 = Resolved relayConn ↔
  ∃ host port h,
    RelayConnection.parseRelayHost (RelayConnection.relayHost config)
    = Js.Returned (host, port) ∧
    ev = Some (SecureConnect h) ∧ authorized h = true ∧
    relayConn = Socket (ToHost host port)
                  (RelayConnection.relayClientCert config)
                  (RelayConnection.relayClientKey config)
                  (RelayConnection.relayServerCertChain config)
                  host [] "TLSv1.2" None true.
Proof. apply createRelayConnection_resolved. Qed.

(** X8: [createGatewayConnection] hands back a socket exactly when the
    first event is ["secureConnect"] with an authorized peer and the
    negotiated protocol is ['infisical-pam-proxy']; the socket then runs
    over the relay socket it was given and offered only that protocol. *)
Theorem gateway_resolves_iff_negotiated (relayConn : TLSSocket)
    (config : GatewayConnection.TGatewayConnectionConfig)
    (ev : option SocketEvent) (gatewayConn : TLSSocket) :
  (GatewayConnection.createGatewayConnection relayConn config ev).2
  = Resolved gatewayConn ↔
  ∃ h, ev = Some (SecureConnect h) ∧ authorized h = true ∧
       alpnProtocol h = Some "infisical-pam-proxy" ∧
       gatewayConn = Socket (OverSocket relayConn)
                       (GatewayConnection.gatewayClientCert config)
                       (GatewayConnection.gatewayClientKey config)
                       (GatewayConnection.gatewayServerCertChain config)
                       "localhost" ["infisical-pam-proxy"]
                       "TLSv1.2" (Some "TLSv1.3") true.
Proof. apply createGatewayConnection_resolved. Qed.

(** X9: the authorization check comes first: for an unauthorized peer
    the gateway connection is refused with the "not authorized" error,
    carrying the verification error or "Unknown error", whatever protocol
    was negotiated. *)
Theorem gateway_unauthorized_before_alpn (relayConn : TLSSocket)
    (config : GatewayConnection.TGatewayConnectionConfig) (h : Handshake) :
  authorized h = false →
  (GatewayConnection.createGatewayConnection relayConn config
     (Some (SecureConnect h))).2
  = Rejected ("Gateway mTLS connection not authorized: "
              +:+ Js.or_default (authorizationError h) "Unknown error").
Proof.
  intros Ha. unfold GatewayConnection.createGatewayConnection,
    GatewayConnection.awaitHandshake. by rewrite Ha.
Qed.

(** X10: on both legs the 10 second timer is armed right after the
    connection is started; it is disarmed exactly when the connection is
    handed back, and the socket is destroyed exactly when the timer
    fires. *)
Theorem handshake_timer_discipline
    (relayConfig : RelayConnection.TRelayConnectionConfig)
    (gatewayConfig : GatewayConnection.TGatewayConnectionConfig)
    (host : string) (port : Z) (relayEvent gatewayEvent : option SocketEvent) :
  RelayConnection.parseRelayHost (RelayConnection.relayHost relayConfig)
  = Js.Returned (host, port) →
  let relay := RelayConnection.relaySocket relayConfig host port in
  let gateway := GatewayConnection.gatewaySocket relay gatewayConfig in
  let r := RelayConnection.createRelayConnection relayConfig relayEvent in
  let g := GatewayConnection.createGatewayConnection relay gatewayConfig gatewayEvent in
  (r.1 !! 1%nat = Some (EConnect relay) ∧
   r.1 !! 2%nat = Some (ESetTimeout relay 10000) ∧
   (ESetTimeout relay 0 ∈ r.1 ↔ r.2 = Resolved relay) ∧
   (EDestroy relay ∈ r.1 ↔ relayEvent = Some TimeoutEvent)) ∧
  (g.1 !! 1%nat = Some (EConnect gateway) ∧
   g.1 !! 2%nat = Some (ESetTimeout gateway 10000) ∧
   (ESetTimeout gateway 0 ∈ g.1 ↔ g.2 = Resolved gateway) ∧
   (EDestroy gateway ∈ g.1 ↔ gatewayEvent = Some TimeoutEvent)).
Proof.
  intros Hp relay gateway r g. subst r g.
  unfold RelayConnection.createRelayConnection,
    GatewayConnection.createGatewayConnection,
    RelayConnection.awaitHandshake, GatewayConnection.awaitHandshake.
  rewrite Hp. fold relay. fold gateway. split.
  - destruct relayEvent as [[h| |]|]; simpl;
      [destruct (authorized h); simpl|..];
      (split; [done|]); (split; [done|]); split; set_unfold;
      intuition (try discriminate; try congruence).
  - destruct gatewayEvent as [[h| |]|]; simpl;
      [destruct (authorized h); simpl;
       [destruct (bool_decide (alpnProtocol h = Some GatewayConnection.ALPN_PAM_PROXY));
        simpl|]|..];
      (split; [done|]); (split; [done|]); split; set_unfold;
      intuition (try discriminate; try congruence).
Qed.

End TunnelFacts.


Lemma relay_address_extra_colons_witness :
  RelayConnection.parseRelayHost "::1"
  = Js.Threw "Invalid port in relay host: ::1".
Proof. exact (relay_address_extra_colons "" "" "1" eq_refl eq_refl). Defined.

Lemma gateway_unauthorized_before_alpn_witness :
  (GatewayConnection.createGatewayConnection sample_relay
     (ChannelObservations.gatewayConfigOf sample_access)
     (Some (Tls.SecureConnect untrusted_handshake))).2
  = Tls.Rejected "Gateway mTLS connection not authorized: self signed certificate".
Proof.
  exact (gateway_unauthorized_before_alpn sample_relay
           (ChannelObservations.gatewayConfigOf sample_access)
           untrusted_handshake eq_refl).
Defined.

Lemma handshake_timer_discipline_witness :
  Tls.ESetTimeout sample_relay 0
  ∈ (RelayConnection.createRelayConnection
       (ChannelObservations.relayConfigOf sample_access)
       (Some (Tls.SecureConnect relay_handshake))).1.
Proof.
  destruct (handshake_timer_discipline
              (ChannelObservations.relayConfigOf sample_access)
              (ChannelObservations.gatewayConfigOf sample_access)
              "relay.example.com" 8443
              (Some (Tls.SecureConnect relay_handshake)) None eq_refl)
    as ((_ & _ & H & _) & _).
  apply H. reflexivity.
Defined.

(** ** The query bridge *)

Section BridgeFacts.
Import QueryExecution.
Context {Row : Type}.

(** X11: the driver client is closed after every call, successful or
    not: the last log line is the one of the [finally] block, and a
    failure to close changes neither the result nor the error. *)
Theorem client_always_closed (gatewayConn : option Tls.TLSSocket)
    (query : string) (credentials : TQueryCredentials)
    (options : option TQueryOptions) (s : Settlement Row) :
  let run e := executeQueryThroughGateway gatewayConn query credentials options
                 {| outcome := outcome s; startTime := startTime s;
                    endTime := endTime s; endError := e |} in
  (∀ e, last (run e).1
        = Some (match e with
                | None => Logger.log Logger.Debug [] "PostgreSQL client disconnected"
                | Some err =>
                    Logger.log Logger.Warn
                      [("error", Logger.FStr (Js.thrown_text err))]
                      "Failed to cleanly disconnect PostgreSQL client"
                end)) ∧
  (∀ e e', (run e).2 = (run e').2).
Proof.
  intros run. subst run. unfold executeQueryThroughGateway, settle. simpl.
  split.
  - intros e. destruct (outcome s); simpl; destruct e; simpl; done.
  - intros e e'. destruct (outcome s); done.
Qed.


(** X13: the driver client uses the gateway connection as its socket,
    holds one connection, without TLS of its own, and lives for the
    timeout rounded up to whole seconds: 30 when no timeout is given. *)
Theorem client_is_single_use (gatewayConn : option Tls.TLSSocket)
    (query : string) (credentials : TQueryCredentials)
    (options : option TQueryOptions) :
  let config := (start gatewayConn query credentials options).2 in
  let t := resolved_timeout options in
  socket config = gatewayConn ∧ max config = 1 ∧ ssl config = false ∧
  idle_timeout config = max_lifetime config ∧
  t ≤ 1000 * max_lifetime config < t + 1000 ∧
  (options ≫= timeout = None → max_lifetime config = 30).
Proof.
  simpl. repeat (split; [done|]). unfold Js.ceil_div. split.
  - pose proof (Z.div_mod (- resolved_timeout options) 1000 ltac:(lia)).
    pose proof (Z.mod_pos_bound (- resolved_timeout options) 1000 ltac:(lia)). lia.
  - intros E. unfold resolved_timeout. by rewrite E.
Qed.

End BridgeFacts.


Lemma client_is_single_use_witness :
  QueryExecution.max_lifetime
    (QueryExecution.start None "SELECT 1" (SessionChannel.queryCredentials sample_credentials)
       None).2 = 30.
Proof.
  destruct (client_is_single_use None "SELECT 1"
              (SessionChannel.queryCredentials sample_credentials) None)
    as (_ & _ & _ & _ & _ & H).
  exact (H eq_refl).
Defined.

(** ** Establishing the channel *)

Section EstablishmentFacts.
Import SessionChannel ChannelObservations.
Context {Row : Type}.

(** X14: nothing is done on the network unless the session is neither
    ended nor terminated, has not expired, the caller may read it, and a
    bundle is stored for it. *)
Theorem tunnels_only_behind_all_gates (sid : string)
    (store : gmap string MemoryStore.TSessionAccessData) (o : Opening)
    (e : Tls.Effect) :
  e ∈ effects_of (@openChannel Row sid store o) →
  (∃ name, status (session o) = OtherStatus name) ∧
  expired (session o) (now o) = false ∧
  canRead o = true ∧
  is_Some (MemoryStore.get sid store).
Proof.
  unfold openChannel.
  destruct (status (session o)) as [| |name]; simpl; [set_solver..|].
  destruct (expired (session o) (now o)); simpl; [set_solver|].
  destruct (canRead o); simpl; [|set_solver].
  destruct (MemoryStore.get sid store) as [d|]; simpl; [|set_solver].
  intros _. eauto.
Qed.

Lemma relay_effects_no_gateway (config : RelayConnection.TRelayConnectionConfig)
    (ev : option Tls.SocketEvent) :
  List.filter is_gateway_connect (RelayConnection.createRelayConnection config ev).1 = [].
Proof.
  unfold RelayConnection.createRelayConnection.
  destruct (RelayConnection.parseRelayHost _) as [[host port]|m]; [|done].
  destruct ev as [[h| |]|]; simpl; try done.
  by destruct (Tls.authorized h).
Qed.

(** X15: unless the relay connection is handed back, no connection to
    the gateway is started and the channel does not become ready. *)
Theorem gateway_never_tried_without_relay (sid : string)
    (store : gmap string MemoryStore.TSessionAccessData) (o : Opening)
    (d : MemoryStore.TSessionAccessData) :
  MemoryStore.get sid store = Some d →
  (∀ relay, (RelayConnection.createRelayConnection (relayConfigOf d) (relayEvent o)).2
            ≠ Tls.Resolved relay) →
  List.filter is_gateway_connect (effects_of (@openChannel Row sid store o)) = [] ∧
  (∀ effects ch, @openChannel Row sid store o ≠ Ready effects ch).
Proof.
  intros Hd Hr. unfold openChannel.
  destruct (status (session o)) as [| |name]; simpl; [done..|].
  destruct (expired (session o) (now o)); simpl; [done|].
  destruct (canRead o); simpl; [|done].
  rewrite Hd. fold (relayConfigOf d).
  pose proof (relay_effects_no_gateway (relayConfigOf d) (relayEvent o)) as Hn.
  destruct (RelayConnection.createRelayConnection (relayConfigOf d) (relayEvent o))
    as [e1 [relay|m|]]; simpl in *; [by destruct (Hr relay)|done..].
Qed.

(** X16: a channel that became ready was connected to the relay first
    and to the gateway second, and to nothing else; it holds both
    sockets, the gateway socket running over the relay socket, for the
    bundle stored under its session id, and the only frame sent so far is
    the ["connected"] acknowledgement. *)
Theorem ready_means_relay_then_gateway (sid : string)
    (store : gmap string MemoryStore.TSessionAccessData) (o : Opening)
    (effects : list Tls.Effect) (ch : Channel Row) :
  openChannel sid store o = Ready effects ch →
  ∃ d host port,
    MemoryStore.get sid store = Some d ∧
    RelayConnection.parseRelayHost (MemoryStore.relayHost d) = Js.Returned (host, port) ∧
    let relay := RelayConnection.relaySocket (relayConfigOf d) host port in
    let gateway := GatewayConnection.gatewaySocket relay (gatewayConfigOf d) in
    sessionId ch = sid ∧ accessData ch = d ∧
    relayConn ch = Some relay ∧ gatewayConn ch = Some gateway ∧
    List.filter Tls.is_connect effects = [Tls.EConnect relay; Tls.EConnect gateway] ∧
    socketOpen ch = true ∧ inflight ch = [] ∧ ended ch = [] ∧
    sent ch = [Wire.connected "WebSocket connection established"].
Proof.
  unfold openChannel.
  destruct (status (session o)) as [| |name]; simpl; [done..|].
  destruct (expired (session o) (now o)); simpl; [done|].
  destruct (canRead o); simpl; [|done].
  destruct (MemoryStore.get sid store) as [d|] eqn:Hd; [|done].
  fold (relayConfigOf d). fold (gatewayConfigOf d).
  destruct (RelayConnection.createRelayConnection (relayConfigOf d) (relayEvent o))
    as [e1 [relay|m|]] eqn:Hr; [|done..].
  destruct (GatewayConnection.createGatewayConnection relay (gatewayConfigOf d)
              (gatewayEvent o)) as [e2 [gateway|m|]] eqn:Hg; [|done..].
  intros [= <- <-].
  assert ((RelayConnection.createRelayConnection (relayConfigOf d) (relayEvent o)).2
          = Tls.Resolved relay) as Hr2 by by rewrite Hr.
  apply createRelayConnection_resolved in Hr2 as (host & port & h & Hp & He & Ha & ->).
  assert ((GatewayConnection.createGatewayConnection
             (RelayConnection.relaySocket (relayConfigOf d) host port)
             (gatewayConfigOf d) (gatewayEvent o)).2 = Tls.Resolved gateway) as Hg2
    by by rewrite Hg.
  apply createGatewayConnection_resolved in Hg2 as (h2 & He2 & Ha2 & Hal & ->).
  exists d, host, port. split; [done|]. split; [exact Hp|]. simpl.
  repeat (split; [done|]). split; [|done].
  rewrite List.filter_app.
  pose proof (relay_connects_once (relayConfigOf d) host port (relayEvent o) Hp) as H1.
  rewrite Hr in H1. simpl in H1. rewrite H1.
  rewrite He2 in Hg. unfold GatewayConnection.createGatewayConnection,
    GatewayConnection.awaitHandshake in Hg. rewrite Ha2 in Hg. simpl in Hg.
  rewrite bool_decide_eq_true_2 in Hg by done. simpl in Hg.
  injection Hg as <-. done.
Qed.

End EstablishmentFacts.

Lemma tunnels_only_behind_all_gates_witness :
  SessionChannel.canRead sample_opening = true ∧
  is_Some (MemoryStore.get "session-1" sample_store).
Proof.
  assert (Tls.EConnect sample_relay
          ∈ ChannelObservations.effects_of
              (@SessionChannel.openChannel nat "session-1" sample_store sample_opening))
    as Hin.
  { apply list_elem_of_In. vm_compute. right. left. reflexivity. }
  destruct (tunnels_only_behind_all_gates "session-1" sample_store sample_opening
              _ Hin) as (_ & _ & Hc & Hs).
  split; [exact Hc|exact Hs].
Defined.

Lemma gateway_never_tried_without_relay_witness :
  let o := {| SessionChannel.session := SessionChannel.session sample_opening;
              SessionChannel.now := 1000; SessionChannel.canRead := true;
              SessionChannel.relayEvent := Some Tls.TimeoutEvent;
              SessionChannel.gatewayEvent :=
                Some (Tls.SecureConnect gateway_handshake) |} in
  List.filter ChannelObservations.is_gateway_connect
    (ChannelObservations.effects_of
       (@SessionChannel.openChannel nat "session-1" sample_store o)) = [].
Proof.
  intros o.
  assert (MemoryStore.get "session-1" sample_store = Some sample_access) as Hd
    by (by vm_compute).
  assert (∀ relay,
            (RelayConnection.createRelayConnection
               (ChannelObservations.relayConfigOf sample_access)
               (SessionChannel.relayEvent o)).2 ≠ Tls.Resolved relay) as Hr.
  { intros relay. vm_compute. discriminate. }
  exact (proj1 (gateway_never_tried_without_relay "session-1" sample_store o
                  sample_access Hd Hr)).
Defined.

Lemma ready_means_relay_then_gateway_witness :
  ∃ relay, SessionChannel.relayConn ready_channel = Some relay ∧
           SessionChannel.gatewayConn ready_channel
           = Some (GatewayConnection.gatewaySocket relay
                     (ChannelObservations.gatewayConfigOf sample_access)).
Proof.
  destruct sample_channel_is_ready as [effects H].
  destruct (ready_means_relay_then_gateway "session-1" sample_store sample_opening
              effects ready_channel H)
    as (d & host & port & _ & _ & _ & Hd & Hr & Hg & _).
  simpl in Hd. subst d. eexists. split; [exact Hr|exact Hg].
Defined.

(** ** Messages on an established channel *)

Section MessageFacts.
Import SessionChannel ChannelObservations.
Context {Row : Type}.
Implicit Types ch : Channel Row.

Lemma parseMessage_some (parsed : Wire.WSMessage Row) (v : Validated) :
  parseMessage parsed = Some v →
  Wire.type parsed = "execute_query" ∧
  Wire.query parsed = Some (v_query v) ∧
  1 ≤ Js.str_length (v_query v) ≤ 10000 ∧
  1 ≤ QueryExecution.resolved_maxRows (v_options v) ≤ 10000 ∧
  1000 ≤ QueryExecution.resolved_timeout (v_options v) ≤ 120000.
Proof.
  unfold parseMessage.
  destruct (decide (Wire.type parsed = "execute_query")) as [Ht|Ht].
  2: { rewrite bool_decide_eq_false_2 by done. done. }
  rewrite bool_decide_eq_true_2 by done. simpl.
  destruct (Wire.query parsed) as [q|]; [|done].
  destruct (1 <=? Js.str_length q) eqn:E1; [|done].
  destruct (Js.str_length q <=? 10000) eqn:E2; [|done]. simpl.
  apply Z.leb_le in E1, E2.
  destruct (Wire.options parsed) as [[m t]|]; simpl.
  - destruct (in_range 1 10000 m) eqn:Em; [|done].
    destruct (in_range 1000 120000 t) eqn:Et; [|done]. simpl.
    intros [= <-]. simpl.
    unfold QueryExecution.resolved_maxRows, QueryExecution.resolved_timeout. simpl.
    repeat (split; [done|]). split.
    + destruct m as [n|]; simpl in *; [|lia].
      apply andb_true_iff in Em as [?%Z.leb_le ?%Z.leb_le]. lia.
    + destruct t as [n|]; simpl in *; [|lia].
      apply andb_true_iff in Et as [?%Z.leb_le ?%Z.leb_le]. lia.
  - intros [= <-]. simpl.
    unfold QueryExecution.resolved_maxRows, QueryExecution.resolved_timeout. simpl.
    repeat split; try done; lia.
Qed.

(** X17: a message that passes the schema carries a query of 1 to
    10000 characters, a row cap between 1 and 10000 (1000 when absent) and
    a timeout between 1000 and 120000 ms (30000 when absent); the reply to
    it holds at most 10000 rows, and they are the first rows of the
    driver's result. *)
Theorem validated_reply_is_bounded (parsed : Wire.WSMessage Row) (v : Validated)
    (credentials : QueryExecution.TQueryCredentials)
    (s : QueryExecution.Settlement Row)
    (result : QueryExecution.DriverResult Row) :
  parseMessage parsed = Some v →
  QueryExecution.outcome s = QueryExecution.Fulfilled result →
  1 ≤ Js.str_length (v_query v) ≤ 10000 ∧
  1 ≤ QueryExecution.resolved_maxRows (v_options v) ≤ 10000 ∧
  1000 ≤ QueryExecution.resolved_timeout (v_options v) ≤ 120000 ∧
  ∃ r, (QueryExecution.settle (v_query v) credentials (v_options v) s).2
       = Js.Returned r ∧
       Z.of_nat (length (QueryExecution.rows r)) ≤ 10000 ∧
       QueryExecution.rows r `prefix_of` QueryExecution.items result.
Proof.
  intros Hp Ho. destruct (parseMessage_some parsed v Hp) as (_ & _ & Hq & Hm & Ht).
  repeat (split; [done|]).
  unfold QueryExecution.settle. rewrite Ho. simpl. eexists. split; [reflexivity|].
  simpl. rewrite slice0_take by lia. split.
  - rewrite length_take. lia.
  - apply prefix_take.
Qed.

(** X18: text that is not JSON, another message type, a missing, empty
    or too long query, or a row cap or timeout out of range never reaches
    the query bridge: nothing is logged, nothing is sent, no connection
    is closed and the socket stays as it is; only the handler's promise
    is rejected. *)
Theorem invalid_message_is_isolated ch (data : Inbound Row) :
  (data = NotJson ∨ ∃ parsed, data = Json parsed ∧
     (Wire.type parsed ≠ "execute_query" ∨
      Wire.query parsed = None ∨
      (∃ q, Wire.query parsed = Some q ∧
            (Js.str_length q < 1 ∨ 10000 < Js.str_length q)) ∨
      (∃ o n, Wire.options parsed = Some o ∧ Wire.opt_maxRows o = Some n ∧
              (n < 1 ∨ 10000 < n)) ∨
      (∃ o n, Wire.options parsed = Some o ∧ Wire.opt_timeout o = Some n ∧
              (n < 1000 ∨ 120000 < n)))) →
  let ch' := onMessage data ch in
  sent ch' = sent ch ∧ inflight ch' = inflight ch ∧ logs ch' = logs ch ∧
  socketOpen ch' = socketOpen ch ∧ ended ch' = ended ch ∧
  length (rejections ch') = S (length (rejections ch)).
Proof.
  intros H.
  assert (data = NotJson ∨ ∃ parsed, data = Json parsed ∧ parseMessage parsed = None)
    as [->|(parsed & -> & Hn)].
  { destruct H as [->|(parsed & -> & H)]; [by left|right].
    exists parsed. split; [done|].
    destruct (parseMessage parsed) as [v|] eqn:Hp; [|done]. exfalso.
    destruct (parseMessage_some parsed v Hp) as (Ht & Hq & Hl & Hm & Hto).
    unfold parseMessage in Hp. rewrite bool_decide_eq_true_2 in Hp by done.
    rewrite Hq in Hp. simpl in Hp.
    destruct H as [H|[H|[(q & Hq' & H)|[(o & n & Ho & Hn & H)|(o & n & Ho & Hn & H)]]]].
    - done.
    - congruence.
    - assert (q = v_query v) as -> by congruence. lia.
    - rewrite Ho in Hp.
      destruct ((1 <=? Js.str_length (v_query v)) && (Js.str_length (v_query v) <=? 10000));
        [|done]. simpl in Hp. rewrite Hn in Hp. simpl in Hp.
      destruct ((1 <=? n) && (n <=? 10000)) eqn:E;
        [apply andb_true_iff in E as [?%Z.leb_le ?%Z.leb_le]; lia|done].
    - rewrite Ho in Hp.
      destruct ((1 <=? Js.str_length (v_query v)) && (Js.str_length (v_query v) <=? 10000));
        [|done]. simpl in Hp. rewrite Hn in Hp.
      destruct (in_range 1 10000 (Wire.opt_maxRows o)); [|done]. simpl in Hp.
      destruct ((1000 <=? n) && (n <=? 120000)) eqn:E;
        [apply andb_true_iff in E as [?%Z.leb_le ?%Z.leb_le]; lia|done]. }
  - simpl. rewrite length_app. simpl. repeat split; try done; lia.
  - simpl. rewrite Hn. simpl. rewrite length_app. simpl. repeat split; try done; lia.
Qed.

End MessageFacts.

Lemma validated_reply_is_bounded_witness :
  ∃ r, (QueryExecution.settle "SELECT n FROM t"
          (SessionChannel.queryCredentials sample_credentials)
          (Some {| QueryExecution.maxRows := Some 2;
                   QueryExecution.timeout := None |})
          (yields [10%nat; 20%nat; 30%nat])).2 = Js.Returned r ∧
       Z.of_nat (length (QueryExecution.rows r)) ≤ 10000.
Proof.
  destruct (validated_reply_is_bounded
              (Wire.execute_query "SELECT n FROM t"
                 {| Wire.opt_maxRows := Some 2; Wire.opt_timeout := None |})
              {| SessionChannel.v_query := "SELECT n FROM t";
                 SessionChannel.v_options :=
                   Some {| QueryExecution.maxRows := Some 2;
                           QueryExecution.timeout := None |} |}
              (SessionChannel.queryCredentials sample_credentials)
              (yields [10%nat; 20%nat; 30%nat])
              _ eq_refl eq_refl)
    as (_ & _ & _ & r & Hr & Hl & _).
  exists r. split; [exact Hr|exact Hl].
Defined.

Lemma invalid_message_is_isolated_witness :
  SessionChannel.sent
    (SessionChannel.onMessage (SessionChannel.Json (Wire.bare "ping")) ready_channel)
  = SessionChannel.sent ready_channel.
Proof.
  assert (Wire.type (@Wire.bare nat "ping") ≠ "execute_query") as Ht
    by discriminate.
  exact (proj1 (invalid_message_is_isolated ready_channel
                  (SessionChannel.Json (Wire.bare "ping"))
                  (or_intror (ex_intro _ (Wire.bare "ping")
                                (conj eq_refl (or_introl Ht)))))).
Defined.

Section RunFacts.
Import SessionChannel ChannelObservations.
Context {Row : Type}.
Implicit Types ch : Channel Row.





Lemma find_after_drop (id : nat) (l : list (nat * Validated)) :
  find_inflight id (drop_inflight id l) = None.
Proof.
  unfold find_inflight, drop_inflight.
  induction l as [|[i v] l IH]; [done|]. simpl.
  destruct (Nat.eqb i id) eqn:E; simpl; [done|]. by rewrite E.
Qed.



Lemma step_sends_only_results ch (e : Event Row) :
  ∃ extra, sent (step ch e) = sent ch ++ extra ∧
           Forall (λ m, Wire.type m = "query_result") extra.
Proof.
  destruct e as [data|id s|g r]; simpl.
  - exists []. rewrite app_nil_r. split; [|constructor].
    unfold onMessage. destruct data as [|parsed]; [done|].
    by destruct (parseMessage parsed).
  - unfold onSettled. destruct (find_inflight id (inflight ch)) as [v|].
    + destruct (QueryExecution.settle _ _ _ s) as [l [results|m]]; simpl.
      * destruct (socketOpen ch).
        -- exists [Wire.query_result results]. split; [done|]. by repeat constructor.
        -- exists []. by rewrite app_nil_r.
      * exists []. by rewrite app_nil_r.
    + exists []. by rewrite app_nil_r.
  - exists []. rewrite app_nil_r. split; [|constructor].
    unfold onClose. destruct (gatewayConn ch), g, (relayConn ch); done.
Qed.

(** X20: whatever happens on an established channel, the frames the
    server sends after the acknowledgement are [query_result] frames: it
    never sends [query_error] or [session_expired]. *)
Theorem server_only_sends_query_results ch (es : list (Event Row)) :
  ∃ extra, sent (run ch es) = sent ch ++ extra ∧
           Forall (λ m, Wire.type m = "query_result") extra ∧
           Forall (λ m, Wire.type m ≠ "query_error"
                        ∧ Wire.type m ≠ "session_expired") extra.
Proof.
  revert ch. induction es as [|e es IH]; intros ch.
  - exists []. rewrite app_nil_r. by repeat split.
  - simpl. destruct (step_sends_only_results ch e) as (x1 & H1 & F1).
    destruct (IH (step ch e)) as (x2 & H2 & F2 & _).
    exists (x1 ++ x2). rewrite H2, H1, app_assoc.
    split; [done|].
    assert (Forall (λ m, Wire.type m = "query_result") (x1 ++ x2)) as F
      by by apply Forall_app.
    split; [done|]. eapply Forall_impl; [exact F|].
    intros m ->. done.
Qed.

End RunFacts.


(** ** The reconnecting client, continued *)

Section HookFacts.
Import PamWebSocket.
Context {Row : Type}.
Implicit Types h : Hook Row.

(** X21: [executeQuery] on a socket that is not open fails at once:
    nothing is sent or queued, the error "WebSocket not connected" is
    stored, and the rest of the state is untouched. *)
Theorem query_without_connection_fails_at_once h (q : string)
    (o : option ExecuteQueryOptions) :
  wsRef h ≠ Some OPEN →
  let h' := executeQuery q o h in
  outbox h' = outbox h ∧
  lastError h' = Some {| Wire.err_message := "WebSocket not connected";
                         Wire.err_code := None |} ∧
  isExecuting h' = isExecuting h ∧
  lastResult h' = lastResult h ∧
  connectionStatus h' = connectionStatus h.
Proof.
  intros Hw. unfold executeQuery.
  destruct (wsRef h) as [[]|]; simpl; done.
Qed.

(** X22: on an open socket [executeQuery] sends one [execute_query]
    frame with the query as given and a row cap of 1000 unless a non-zero
    one was asked for, and marks the hook as executing.  The server's
    schema accepts that frame exactly when the query has 1 to 10000
    characters and the cap is between 1 and 10000. *)
Theorem client_frame_passes_server_schema h (q : string)
    (o : option ExecuteQueryOptions) :
  wsRef h = Some OPEN →
  let cap := match o ≫= maxRows with
             | Some n => if n =? 0 then 1000 else n
             | None => 1000
             end in
  let frame := Wire.execute_query q {| Wire.opt_maxRows := Some cap;
                                       Wire.opt_timeout := None |} in
  let h' := executeQuery q o h in
  outbox h' = outbox h ++ [frame] ∧
  isExecuting h' = true ∧ lastResult h' = None ∧ lastError h' = None ∧
  (is_Some (SessionChannel.parseMessage frame) ↔
   1 ≤ Js.str_length q ≤ 10000 ∧ 1 ≤ cap ≤ 10000) ∧
  (o ≫= maxRows = None →
   1 ≤ Js.str_length q ≤ 10000 →
   SessionChannel.parseMessage frame
   = Some {| SessionChannel.v_query := q;
             SessionChannel.v_options :=
               Some {| QueryExecution.maxRows := Some 1000;
                       QueryExecution.timeout := None |} |}).
Proof.
  intros Hw cap frame h'. subst h'. unfold executeQuery. rewrite Hw. simpl.
  fold cap. fold frame. repeat (split; [done|]).
  unfold SessionChannel.parseMessage, frame. simpl. split.
  - destruct (1 <=? Js.str_length q) eqn:E1; simpl.
    + destruct (Js.str_length q <=? 10000) eqn:E2; simpl.
      * destruct (1 <=? cap) eqn:E3; simpl.
        -- destruct (cap <=? 10000) eqn:E4; simpl.
           ++ split; [|eauto]. intros _.
              apply Z.leb_le in E1, E2, E3, E4. lia.
           ++ split; [by intros [? ?]|]. apply Z.leb_gt in E4. lia.
        -- split; [by intros [? ?]|]. apply Z.leb_gt in E3. lia.
      * split; [by intros [? ?]|]. apply Z.leb_gt in E2. lia.
    + split; [by intros [? ?]|]. apply Z.leb_gt in E1. lia.
  - intros E [H1 H2]. subst cap. rewrite E. simpl.
    apply Z.leb_le in H1, H2. by rewrite H1, H2.
Qed.

Lemma step_keeps_reconnect_off h (e : Event Row) :
  shouldReconnectRef h = false →
  shouldReconnectRef (step h e) = false ∧ timers (step h e) ⊆ timers h.
Proof.
  intros Hs. destruct e as [|f| | |handle env|q o]; simpl.
  - done.
  - unfold onmessage. destruct f as [|m]; [done|].
    repeat case_decide; simpl; try done.
    unfold wsClose. simpl. by destruct (wsRef h).
  - done.
  - unfold onclose. simpl. by rewrite Hs.
  - unfold ontimer. destruct (pending handle h); [|done].
    unfold connect. simpl.
    assert (List.filter (λ t, negb (Nat.eqb t.1 handle)) (timers h) ⊆ timers h) as Hsub.
    { intros x Hx. apply list_elem_of_In, List.filter_In in Hx as [Hx _].
      by apply list_elem_of_In. }
    destruct (wsRef h) as [[]|]; simpl;
      destruct (token env); simpl; try done;
      destruct (constructorThrows env); simpl; done.
  - unfold executeQuery. destruct (wsRef h) as [[]|]; done.
Qed.

Lemma onclose_when_off h :
  shouldReconnectRef h = false →
  timers (onclose h) = timers h ∧ connectionStatus (onclose h) = disconnected.
Proof. intros Hs. unfold onclose. simpl. by rewrite Hs. Qed.

Lemma run_keeps_reconnect_off h (es : list (Event Row)) :
  shouldReconnectRef h = false →
  shouldReconnectRef (run h es) = false ∧ timers (run h es) ⊆ timers h.
Proof.
  revert h. induction es as [|e es IH]; intros h Hs; [done|].
  simpl. destruct (step_keeps_reconnect_off h e Hs) as [H1 H2].
  destruct (IH (step h e) H1) as [H3 H4]. split; [done|]. by etrans.
Qed.

(** X23: a [session_expired] message stores its text as the error (or
    "Session expired"), ends the executing state and turns reconnection
    off for good: whatever follows, no further timer is set, and a close
    leaves the hook disconnected, however few attempts were used. *)
Theorem expired_session_never_reconnects h (m : Wire.WSMessage Row)
    (es : list (Event Row)) :
  Wire.type m = "session_expired" →
  let h' := onmessage (Json m) h in
  lastError h' = Some {| Wire.err_message :=
                           Js.or_default (Wire.message m) "Session expired";
                         Wire.err_code := None |} ∧
  isExecuting h' = false ∧
  shouldReconnectRef (run h' es) = false ∧
  timers (run h' es) ⊆ timers h ∧
  timers (onclose (run h' es)) = timers (run h' es) ∧
  connectionStatus (onclose (run h' es)) = disconnected.
Proof.
  intros Ht h'. subst h'.
  assert (shouldReconnectRef (onmessage (Json m) h) = false
          ∧ timers (onmessage (Json m) h) = timers h
          ∧ lastError (onmessage (Json m) h)
            = Some {| Wire.err_message :=
                        Js.or_default (Wire.message m) "Session expired";
                      Wire.err_code := None |}
          ∧ isExecuting (onmessage (Json m) h) = false) as (H1 & H2 & H3 & H4).
  { unfold onmessage. rewrite Ht. simpl. unfold wsClose. simpl.
    by destruct (wsRef h). }
  destruct (run_keeps_reconnect_off _ es H1) as [H5 H6].
  rewrite H2 in H6. repeat (split; [done|]).
  by apply onclose_when_off.
Qed.

(** X24: unmounting right after a close cancels the reconnect that the
    close scheduled, and none is scheduled later. *)
Theorem unmount_cancels_reconnect h (es : list (Event Row)) :
  timers h = [] →
  let h' := unmount (onclose h) in
  timers h' = [] ∧ shouldReconnectRef h' = false ∧
  timers (run h' es) = [] ∧ shouldReconnectRef (run h' es) = false.
Proof.
  intros Ht h'.
  assert (timers h' = [] ∧ shouldReconnectRef h' = false) as [H1 H2].
  { subst h'. unfold unmount, onclose. simpl.
    destruct (shouldReconnectRef h && (reconnectAttemptsRef h <? MAX_RECONNECT_ATTEMPTS));
      simpl.
    - unfold wsClose. simpl. rewrite Ht. simpl. by rewrite Nat.eqb_refl.
    - unfold wsClose.
      destruct (reconnectTimeoutRef h); simpl; rewrite Ht; done. }
  destruct (run_keeps_reconnect_off h' es H2) as [H3 H4].
  repeat (split; [done|]). split; [|done].
  rewrite H1 in H4. destruct (timers (run h' es)) as [|t l]; [done|].
  exfalso. specialize (H4 t). set_solver.
Qed.

(** X25: the reconnect delay lies between 1000 and 30000 ms, never
    decreases with the attempt number and is 30000 from the fifth attempt
    on; since a reconnect is only scheduled for attempts below five, a
    scheduled delay is at most 16000 ms and the cap is never reached. *)
Theorem reconnect_delay_bounds h (n m : Z) :
  (0 ≤ n → 1000 ≤ reconnectDelay n ≤ 30000) ∧
  (0 ≤ n ≤ m → reconnectDelay n ≤ reconnectDelay m) ∧
  (5 ≤ n → reconnectDelay n = 30000) ∧
  (0 ≤ reconnectAttemptsRef h →
   ∀ t, t ∈ timers (onclose h) → t ∈ timers h ∨ 1000 ≤ t.2 ≤ 16000).
Proof.
  assert (∀ k, 0 ≤ k → 1 ≤ 2 ^ k) as Hpow.
  { intros k Hk. pose proof (Z.pow_pos_nonneg 2 k ltac:(lia) Hk). lia. }
  unfold reconnectDelay, INITIAL_RECONNECT_DELAY, MAX_RECONNECT_DELAY.
  split; [|split; [|split]].
  - intros Hn. specialize (Hpow n Hn). lia.
  - intros [Hn Hm].
    pose proof (Z.pow_le_mono_r 2 n m ltac:(lia) Hm). lia.
  - intros Hn.
    pose proof (Z.pow_le_mono_r 2 5 n ltac:(lia) Hn) as Hp.
    change (2 ^ 5) with 32 in Hp. lia.
  - intros Ha t. unfold onclose. simpl.
    destruct (shouldReconnectRef h); simpl; [|by left].
    destruct (reconnectAttemptsRef h <? MAX_RECONNECT_ATTEMPTS) eqn:E; simpl; [|by left].
    apply Z.ltb_lt in E. unfold MAX_RECONNECT_ATTEMPTS in E.
    intros [Ht|Ht]%elem_of_app; [by left|right].
    apply list_elem_of_singleton in Ht. subst t. simpl.
    unfold reconnectDelay, INITIAL_RECONNECT_DELAY, MAX_RECONNECT_DELAY.
    specialize (Hpow _ Ha).
    pose proof (Z.pow_le_mono_r 2 (reconnectAttemptsRef h) 4 ltac:(lia) ltac:(lia)) as Hp.
    change (2 ^ 4) with 16 in Hp. lia.
Qed.

End HookFacts.

Lemma query_without_connection_fails_at_once_witness :
  PamWebSocket.outbox
    (PamWebSocket.executeQuery "SELECT 1" None (@PamWebSocket.initial nat))
  = [].
Proof.
  assert (PamWebSocket.wsRef (@PamWebSocket.initial nat) ≠ Some PamWebSocket.OPEN)
    as Hw by discriminate.
  exact (proj1 (query_without_connection_fails_at_once PamWebSocket.initial
                  "SELECT 1" None Hw)).
Defined.

Lemma client_frame_passes_server_schema_witness :
  SessionChannel.parseMessage
    (@Wire.execute_query nat "SELECT 1"
       {| Wire.opt_maxRows := Some 1000; Wire.opt_timeout := None |})
  = Some {| SessionChannel.v_query := "SELECT 1";
            SessionChannel.v_options :=
              Some {| QueryExecution.maxRows := Some 1000;
                      QueryExecution.timeout := None |} |}.
Proof.
  destruct (client_frame_passes_server_schema connected_hook "SELECT 1" None eq_refl)
    as (_ & _ & _ & _ & _ & H).
  apply (H eq_refl). unfold Js.str_length. simpl. lia.
Defined.

Lemma expired_session_never_reconnects_witness :
  PamWebSocket.shouldReconnectRef
    (PamWebSocket.run
       (PamWebSocket.onmessage (PamWebSocket.Json (Wire.bare "session_expired"))
          connected_hook)
       [PamWebSocket.Closed]) = false.
Proof.
  destruct (expired_session_never_reconnects connected_hook
              (Wire.bare "session_expired") [PamWebSocket.Closed] eq_refl)
    as (_ & _ & H & _).
  exact H.
Defined.

Lemma unmount_cancels_reconnect_witness :
  PamWebSocket.timers (PamWebSocket.unmount (PamWebSocket.onclose connected_hook))
  = [].
Proof.
  exact (proj1 (unmount_cancels_reconnect connected_hook [] eq_refl)).
Defined.

Lemma reconnect_delay_bounds_witness :
  1000 ≤ PamWebSocket.reconnectDelay 3 ≤ 30000.
Proof.
  destruct (reconnect_delay_bounds connected_hook 3 4) as (H & _).
  apply H. lia.
Defined.

(** ** The session header and the editor *)

Section HeaderFacts.
Import SessionHeader.

(** X26: a session at or past its expiry shows "Expired".  Before it,
    the minutes shown are between 0 and 59, hours and minutes together
    are the time left rounded down to the minute, the text starts with
    the hours when there is at least one and with the minutes otherwise,
    and less than a minute left shows as "0m remaining". *)
Theorem time_remaining_rounds_down (expiresAt now : Z) :
  (expiresAt ≤ now → timeRemaining (Some expiresAt) now = "Expired") ∧
  (now < expiresAt →
   let diffMs := expiresAt - now in
   let hours := hoursLeft diffMs in
   let minutes := minutesLeft diffMs in
   0 ≤ hours ∧ 0 ≤ minutes < 60 ∧
   hours * 3600000 + minutes * 60000 ≤ diffMs
     < hours * 3600000 + minutes * 60000 + 60000 ∧
   Js.parseInt10 (timeRemaining (Some expiresAt) now)
   = Some (if 0 <? hours then hours else minutes) ∧
   (diffMs < 60000 → timeRemaining (Some expiresAt) now = "0m remaining")).
Proof.
  split.
  - intros H. unfold timeRemaining.
    destruct (expiresAt - now <=? 0) eqn:E; [done|]. apply Z.leb_gt in E. lia.
  - intros H diffMs hours minutes.
    assert (0 < diffMs) as Hd by (subst diffMs; lia).
    assert (Z.rem diffMs (1000 * 60 * 60) = diffMs mod (1000 * 60 * 60)) as Hrem
      by (apply Z.rem_mod_nonneg; lia).
    pose proof (Z.div_mod diffMs (1000 * 60 * 60) ltac:(lia)) as H1.
    pose proof (Z.mod_pos_bound diffMs (1000 * 60 * 60) ltac:(lia)) as H2.
    pose proof (Z.div_mod (diffMs mod (1000 * 60 * 60)) (1000 * 60) ltac:(lia)) as H3.
    pose proof (Z.mod_pos_bound (diffMs mod (1000 * 60 * 60)) (1000 * 60) ltac:(lia)) as H4.
    assert (0 ≤ hours) as Hh by (subst hours; unfold hoursLeft; apply Z.div_pos; lia).
    assert (minutes = diffMs mod (1000 * 60 * 60) / (1000 * 60)) as Hm
      by (subst minutes; unfold minutesLeft; by rewrite Hrem).
    assert (0 ≤ minutes < 60) as Hmb.
    { rewrite Hm. split; [apply Z.div_pos; lia|].
      apply Z.div_lt_upper_bound; lia. }
    split; [done|]. split; [done|]. split.
    { subst hours. unfold hoursLeft. rewrite Hm. lia. }
    assert (timeRemaining (Some expiresAt) now
            = if 0 <? hours
              then show_Z hours +:+ "h " +:+ show_Z minutes +:+ "m remaining"
              else show_Z minutes +:+ "m remaining") as Ht.
    { unfold timeRemaining. fold diffMs.
      destruct (diffMs <=? 0) eqn:E; [apply Z.leb_le in E; lia|done]. }
    split.
    + rewrite Ht. destruct (0 <? hours); by apply parseInt10_show_Z.
    + intros Hlt. rewrite Ht.
      assert (hours = 0) as ->.
      { subst hours. unfold hoursLeft. apply Z.div_small. lia. }
      assert (minutes = 0) as ->.
      { rewrite Hm. rewrite Z.mod_small by lia. apply Z.div_small. lia. }
      done.
Qed.

End HeaderFacts.

Section EditorFacts.
Import PamWebSocket SqlEditor.
Context {Row : Type}.
Implicit Types h : Hook Row.

Lemma trim_start_blank (s : string) :
  all_white_space s = true → Js.trim_start s = "".
Proof.
  induction s as [|a s IH]; [done|]. simpl.
  intros [Ha Hs]%andb_true_iff. rewrite Ha. by apply IH.
Qed.

Lemma trim_start_head (s : string) :
  match Js.trim_start s with
  | String a _ => Js.is_white_space a = false
  | EmptyString => all_white_space s = true
  end.
Proof.
  induction s as [|a s IH]; [done|]. simpl.
  destruct (Js.is_white_space a) eqn:E; simpl; [exact IH|exact E].
Qed.

Lemma trim_end_empty (s : string) :
  trim_end s = "" → all_white_space s = true.
Proof.
  induction s as [|a s IH]; [done|]. simpl.
  destruct (trim_end s) eqn:E; [|done].
  destruct (Js.is_white_space a); [|done]. intros _. by apply IH.
Qed.

Lemma trim_blank_iff (s : string) :
  trim s = "" ↔ all_white_space s = true.
Proof.
  unfold trim. split.
  - intros H. apply trim_end_empty in H.
    pose proof (trim_start_head s) as Hh.
    destruct (Js.trim_start s) as [|a r]; [done|].
    simpl in H. rewrite Hh in H. done.
  - intros H. by rewrite trim_start_blank.
Qed.

(** X27: a query that is empty or made of white space only is never
    sent, by the button or by the keyboard: the hook is left as it is. *)
Theorem blank_query_is_never_sent h (query : string) (metaKey ctrlKey : bool)
    (key : string) :
  all_white_space query = true →
  handleExecute query h = h ∧
  handleKeyDown metaKey ctrlKey key query h = h ∧
  clickExecute query h = h ∧
  canExecute h query = false.
Proof.
  intros Hb. apply trim_blank_iff in Hb.
  assert (handleExecute query h = h) as He.
  { unfold handleExecute. by rewrite decide_True. }
  split; [done|]. split; [|split].
  - unfold handleKeyDown. by destruct (_ && _).
  - unfold clickExecute. by destruct (canExecute h query).
  - unfold canExecute. rewrite Hb. simpl. apply andb_false_r.
Qed.

(** X28: the button does nothing while a query is executing, but the
    keyboard shortcut does not look at that: with Ctrl or Cmd and Enter, a
    query that is not blank is sent on an open socket even while another
    one is executing. *)
Theorem shortcut_sends_while_executing h (query : string)
    (metaKey ctrlKey : bool) :
  wsRef h = Some OPEN →
  all_white_space query = false →
  metaKey || ctrlKey = true →
  outbox (handleKeyDown metaKey ctrlKey "Enter" query h)
  = outbox h ++ [Wire.execute_query query
                   {| Wire.opt_maxRows := Some 1000; Wire.opt_timeout := None |}] ∧
  (isExecuting h = true → clickExecute query h = h).
Proof.
  intros Hw Hb Hk. split.
  - unfold handleKeyDown. rewrite Hk. simpl.
    unfold handleExecute. rewrite decide_False.
    + unfold executeQuery. rewrite Hw. done.
    + intros E. apply trim_blank_iff in E. congruence.
  - intros He. unfold clickExecute, canExecute. rewrite He. simpl.
    by rewrite andb_false_r.
Qed.

End EditorFacts.

Lemma time_remaining_rounds_down_witness :
  Js.parseInt10 (SessionHeader.timeRemaining (Some 5400000) 0) = Some 1 ∧
  SessionHeader.minutesLeft (5400000 - 0) = 30.
Proof.
  destruct (time_remaining_rounds_down 5400000 0) as (_ & H).
  destruct (H ltac:(lia)) as (_ & _ & _ & Hp & _).
  split; [exact Hp|reflexivity].
Defined.

Lemma blank_query_is_never_sent_witness :
  SqlEditor.handleKeyDown false true "Enter" "   " connected_hook = connected_hook.
Proof.
  destruct (blank_query_is_never_sent connected_hook "   " false true "Enter" eq_refl)
    as (_ & H & _).
  exact H.
Defined.

Lemma shortcut_sends_while_executing_witness :
  let h := PamWebSocket.executeQuery "SELECT pg_sleep(5)" None connected_hook in
  PamWebSocket.isExecuting h = true ∧
  PamWebSocket.outbox (SqlEditor.handleKeyDown false true "Enter" "SELECT 1" h)
  = PamWebSocket.outbox h
    ++ [Wire.execute_query "SELECT 1"
          {| Wire.opt_maxRows := Some 1000; Wire.opt_timeout := None |}].
Proof.
  intros h. split; [reflexivity|].
  exact (proj1 (shortcut_sends_while_executing h "SELECT 1" false true
                  eq_refl eq_refl eq_refl)).
Defined.
